(** * Masjid Fund Collection API: a shallow embedding of [main.py] and [schemas.py]

    The service is a set of FastAPI handlers over a MongoDB database.  The
    embedding keeps the shapes the Python code works with:

    - a stored document is a Python [dict] from field names to values, and a
      missing key is distinct from a key holding [None];
    - amounts are Python floats, i.e. IEEE binary64 numbers, and are added in
      the order the cursor yields them;
    - a handler runs against the database and either returns a payload or
      raises; what it wrote before raising stays written;
    - values supplied by the server side of the driver (the generated
      [ObjectId] and the clock) enter each handler as an explicit [env]. *)

From Stdlib Require Import Floats ZArith Ascii String Sorted.
From stdpp Require Import gmap strings list fin_maps option.

Local Open Scope string_scope.
Local Open Scope Z_scope.

(** ** Python values *)

(** [bson.ObjectId]: the identifier's bytes, kept as the lowercase hexadecimal
    digits that [str(oid)] prints (24 digits for the twelve bytes of an
    identifier the driver generates). *)
Record object_id := Oid { oid_hex : string }.

(** The values a document field or a keyword argument can hold.  [VList] is a
    list of strings ([allowed_frequencies]), [VMap] a string-to-string
    sub-document ([roles]). *)
Inductive value :=
| VNull
| VBool (b : bool)
| VStr (s : string)
| VNum (x : float)
| VDate (t : Z)
| VOid (o : object_id)
| VList (l : list string)
| VMap (m : gmap string string).

Abbreviation pydict := (gmap string value).

Module Py.

(** [bool(v)] *)
Definition truthy (v : value) : bool :=
  match v with
  | VNull => false
  | VBool b => b
  | VStr s => negb (String.eqb s "")
  | VNum x => negb (PrimFloat.eqb x 0%float)
  | VDate _ => true
  | VOid _ => true
  | VList l => match l with [] => false | _ => true end
  | VMap m => negb (bool_decide (m = ∅))
  end.

(** [a or b] *)
Definition or (a b : value) : value := if truthy a then a else b.

(** [d.get(k)] *)
Definition get (d : pydict) (k : string) : value := default VNull (d !! k).

(** [d.get(k, dflt)] *)
Definition get_default (d : pydict) (k : string) (dflt : value) : value :=
  default dflt (d !! k).

(** [a == b] on the values the handlers compare. *)
Definition eqb (a b : value) : bool :=
  match a, b with
  | VNull, VNull => true
  | VBool x, VBool y => Bool.eqb x y
  | VStr x, VStr y => String.eqb x y
  | VNum x, VNum y => PrimFloat.eqb x y
  | VDate x, VDate y => Z.eqb x y
  | VOid x, VOid y => String.eqb (oid_hex x) (oid_hex y)
  | VList x, VList y => bool_decide (x = y)
  | VMap x, VMap y => bool_decide (x = y)
  | _, _ => false
  end.

End Py.

(** ** Exceptions and handler outcomes *)

Inductive exn :=
| HTTPException (status_code : Z) (detail : string)
| ValidationError          (* pydantic_core.ValidationError *)
| InvalidId                (* bson.errors.InvalidId *)
| TypeError
| AttributeError
| ValueError
| WriteError.              (* pymongo.errors.WriteError *)

Inductive outcome (A : Type) :=
| Return (a : A)
| Raise (e : exn).
Arguments Return {A} a.
Arguments Raise {A} e.

(** What the framework sends back: a returned payload is a 200, an
    [HTTPException] carries its own status, and any other exception leaving a
    handler is answered with 500 Internal Server Error. *)
Definition status_of {A} (r : outcome A) : Z :=
  match r with
  | Return _ => 200
  | Raise (HTTPException s _) => s
  | Raise _ => 500
  end.

Definition is_client_error (s : Z) : bool := (400 <=? s) && (s <? 500).
Definition is_server_fault (s : Z) : bool := (500 <=? s) && (s <? 600).

(** ** bson.ObjectId *)

Module Bson.

Definition is_hex (c : ascii) : bool :=
  let n := nat_of_ascii c in
  ((48 <=? n) && (n <=? 57) || (97 <=? n) && (n <=? 102) || (65 <=? n) && (n <=? 70))%nat.

Definition lower (c : ascii) : ascii :=
  let n := nat_of_ascii c in
  if ((65 <=? n) && (n <=? 90))%nat then ascii_of_nat (n + 32) else c.

Fixpoint all_hex (s : string) : bool :=
  match s with
  | EmptyString => true
  | String c s' => is_hex c && all_hex s'
  end.

Fixpoint lowercase (s : string) : string :=
  match s with
  | EmptyString => EmptyString
  | String c s' => String (lower c) (lowercase s')
  end.

(** ASCII whitespace as [bytes.fromhex] skips it (Python 3.7 and later):
    space, tab, line feed, vertical tab, form feed, carriage return. *)
Definition is_space (c : ascii) : bool :=
  let n := nat_of_ascii c in
  ((n =? 32) || (9 <=? n) && (n <=? 13))%nat.

(** [bytes.fromhex(s)], the bytes given back as their lowercase hexadecimal
    digits: whitespace is skipped before each byte and at the end, and a byte
    is two adjacent hexadecimal digits; any other character, or a digit left
    alone, is a [ValueError] ([None]). *)
Fixpoint fromhex (s : string) : option string :=
  match s with
  | EmptyString => Some EmptyString
  | String c s' =>
      if is_space c then fromhex s'
      else if is_hex c then
        match s' with
        | String c' s'' =>
            if is_hex c'
            then option_map (fun rest => String (lower c) (String (lower c') rest))
                            (fromhex s'')
            else None
        | EmptyString => None
        end
      else None
  end.

(** [ObjectId(id_str)] on a string: [len(id_str) == 24], then
    [bytes.fromhex(id_str)]; anything else is [InvalidId].  The bytes are not
    counted afterwards, so a 24-character string with whitespace between its
    digit pairs is accepted and gives a shorter identifier. *)
Definition ObjectId (id_str : string) : option object_id :=
  if (String.length id_str =? 24)%nat
  then option_map Oid (fromhex id_str)
  else None.

(** [str(oid)] *)
Definition str (o : object_id) : string := oid_hex o.

End Bson.

(** The error monad of a Python call that may raise. *)
Global Instance outcome_ret : MRet outcome := fun _ a => Return a.
Global Instance outcome_bind : MBind outcome := fun _ _ f r =>
  match r with
  | Return a => f a
  | Raise e => Raise e
  end.
Global Instance outcome_fmap : FMap outcome := fun _ _ f r =>
  match r with
  | Return a => Return (f a)
  | Raise e => Raise e
  end.

(** ** The document store (pymongo) *)

Module Mongo.

(** A stored document: the driver gives every document an [_id]; the other
    fields are free-form. *)
Record document := Doc { doc_id : object_id; doc_fields : gmap string value }.

(** The [dict] a cursor yields for a document. *)
Definition as_dict (d : document) : pydict :=
  <["_id" := VOid (doc_id d)]> (doc_fields d).

(** A filter such as [{"project_id": pid, "approved": True}]: every listed
    field must be present and equal.  Array containment and operators are not
    modelled; no filter of the service targets an array field or uses one. *)
Definition query := list (string * value).

Definition matches (q : query) (d : document) : bool :=
  forallb (fun kv => match as_dict d !! kv.1 with
                     | Some v => Py.eqb v kv.2
                     | None => false
                     end) q.

(** [coll.find(q)], in natural (insertion) order. *)
Definition find (q : query) (c : list document) : list document :=
  List.filter (matches q) c.

(** [coll.find_one(q)] *)
Definition find_one (q : query) (c : list document) : option document :=
  head (find q c).

(** [coll.count_documents(q)] *)
Definition count_documents (q : query) (c : list document) : nat :=
  length (find q c).

(** The sort key of [.sort(key, -1)].  Only timestamps are ordered here; a
    document without a timestamp under [key] sorts as the lowest value. *)
Definition sort_key (key : string) (d : document) : option Z :=
  match doc_fields d !! key with
  | Some (VDate t) => Some t
  | _ => None
  end.

Definition key_ge (a b : option Z) : bool :=
  match a, b with
  | Some x, Some y => y <=? x
  | Some _, None => true
  | None, Some _ => false
  | None, None => true
  end.

Fixpoint insert_desc (key : string) (d : document) (l : list document) : list document :=
  match l with
  | [] => [d]
  | x :: l' =>
      if key_ge (sort_key key d) (sort_key key x)
      then d :: x :: l'
      else x :: insert_desc key d l'
  end.

(** [cursor.sort(key, -1)]: descending, ties kept in natural order. *)
Definition sort_desc (key : string) (c : list document) : list document :=
  foldr (insert_desc key) [] c.

(** [cursor.limit(n)] *)
Definition limit (n : nat) (c : list document) : list document := take n c.

(** The update documents the service sends: [{"$set": d}] with plain field
    names, and [{"$set": {"k.sub": s}}] with one dotted path. *)
Inductive update :=
| SetFields (d : pydict)
| SetDotted (k sub : string) (s : string).

(** Applying an update to the fields of a document.  A dotted path creates
    the sub-document when the field is missing, writes into it when it is a
    sub-document, and is refused by the server otherwise. *)
Definition apply_update (u : update) (f : gmap string value) : option (gmap string value) :=
  match u with
  | SetFields d => Some (d ∪ f)
  | SetDotted k sub s =>
      match f !! k with
      | None => Some (<[k := VMap {[ sub := s ]}]> f)
      | Some (VMap m) => Some (<[k := VMap (<[sub := s]> m)]> f)
      | Some _ => None
      end
  end.

(** Update the first document matching [q].  [None]: nothing matched;
    [Some None]: the server refused the write. *)
Fixpoint update_first (q : query) (u : update) (c : list document)
  : option (option (list document)) :=
  match c with
  | [] => None
  | d :: c' =>
      if matches q d
      then Some (match apply_update u (doc_fields d) with
                 | Some f => Some (Doc (doc_id d) f :: c')
                 | None => None
                 end)
      else option_map (option_map (cons d)) (update_first q u c')
  end.

(** The fields an upsert starts from: the equality fields of the filter. *)
Definition query_fields (q : query) : gmap string value :=
  delete "_id" (list_to_map q).

(** The database: collections by name; [db[name]] of an unknown name is an
    empty collection. *)
Definition collection (db : gmap string (list document)) (name : string) : list document :=
  default [] (db !! name).

(** [db[name].insert_one(doc)] with the generated [_id]. *)
Definition insert_one (name : string) (d : document) (db : gmap string (list document))
  : gmap string (list document) :=
  <[name := (collection db name ++ [d])%list]> db.

(** [db[name].update_one(q, u, upsert=...)]: the matched count and the
    database after the write.  [new_id] is the [_id] the server gives an
    upserted document.  Nothing is written when nothing matches and
    [upsert] is off. *)
Definition update_one (name : string) (q : query) (u : update) (upsert : bool)
    (new_id : object_id) (db : gmap string (list document))
  : outcome (nat * gmap string (list document)) :=
  match update_first q u (collection db name) with
  | Some (Some c') => Return (1%nat, <[name := c']> db)
  | Some None => Raise WriteError
  | None =>
      if upsert
      then match apply_update u (query_fields q) with
           | Some f => Return (0%nat, insert_one name (Doc new_id f) db)
           | None => Raise WriteError
           end
      else Return (0%nat, db)
  end.

End Mongo.

(** ** schemas.py: the pydantic models *)

Module Schemas.

Definition Frequency : list string := ["one_time"; "weekly"; "monthly"; "yearly"].
Definition PaymentMode : list string := ["direct"; "online"; "gpay"].
Definition Role : list string := ["super_admin"; "admin"; "accountant"; "member"].

(** *** Field validation

    A model is built from keyword arguments.  A key that is absent takes the
    field's default (or fails when the field is required); a key that is
    present is validated against the field's type and constraints, also when
    it holds [None].  Coercions between types are not modelled: the handlers
    pass values of the declared types or [None]. *)

Definition is_str (v : value) : option string :=
  match v with VStr s => Some s | _ => None end.
Definition is_bool (v : value) : option bool :=
  match v with VBool b => Some b | _ => None end.
Definition is_float (v : value) : option float :=
  match v with VNum x => Some x | _ => None end.
Definition is_datetime (v : value) : option Z :=
  match v with VDate t => Some t | _ => None end.

(** [Optional[T]] *)
Definition optional {A} (f : value → option A) (v : value) : option (option A) :=
  match v with
  | VNull => Some None
  | _ => match f v with Some a => Some (Some a) | None => None end
  end.

(** [Literal[...]] *)
Definition literal (allowed : list string) (v : value) : option string :=
  match v with
  | VStr s => if bool_decide (s ∈ allowed) then Some s else None
  | _ => None
  end.

(** [List[Literal[...]]] *)
Definition list_of_literal (allowed : list string) (v : value) : option (list string) :=
  match v with
  | VList l => if forallb (fun s => bool_decide (s ∈ allowed)) l then Some l else None
  | _ => None
  end.

(** [Dict[str, Literal[...]]] *)
Definition dict_of_literal (allowed : list string) (v : value) : option (gmap string string) :=
  match v with
  | VMap m => if forallb (fun kv => bool_decide (kv.2 ∈ allowed)) (map_to_list m)
              then Some m else None
  | _ => None
  end.

(** [Field(..., gt=0)] and [Field(None, ge=0)] on a float *)
Definition gt0 (x : float) : option float :=
  if PrimFloat.ltb 0%float x then Some x else None.
Definition ge0 (x : float) : option float :=
  if PrimFloat.leb 0%float x then Some x else None.

(** A required field, [name: T] or [Field(...)] *)
Definition required {A} (kw : pydict) (name : string) (f : value → option A) : outcome A :=
  match kw !! name with
  | Some v => match f v with Some a => Return a | None => Raise ValidationError end
  | None => Raise ValidationError
  end.

(** A field with a default or a default factory *)
Definition defaulted {A} (kw : pydict) (name : string) (f : value → option A) (dflt : A)
  : outcome A :=
  match kw !! name with
  | Some v => match f v with Some a => Return a | None => Raise ValidationError end
  | None => Return dflt
  end.

Definition dump_opt {A} (f : A → value) (o : option A) : value :=
  match o with Some a => f a | None => VNull end.

(** [BaseModel.model_dump()]: every field, a [None] field included. *)
Class BaseModel (A : Type) := model_dump : A → pydict.

(** *** User *)
Record User := mkUser {
  user_mobile : string;
  user_name : option string;
  user_otp : option string;
  user_roles : gmap string string;
  user_is_super_admin : bool }.

Definition User_new (kw : pydict) : outcome User :=
  mobile ← required kw "mobile" is_str;
  name ← defaulted kw "name" (optional is_str) None;
  otp ← defaulted kw "otp" (optional is_str) None;
  roles ← defaulted kw "roles" (dict_of_literal Role) ∅;
  is_super_admin ← defaulted kw "is_super_admin" is_bool false;
  mret (mkUser mobile name otp roles is_super_admin).

Global Instance User_model : BaseModel User := fun u =>
  {[ "mobile" := VStr (user_mobile u);
     "name" := dump_opt VStr (user_name u);
     "otp" := dump_opt VStr (user_otp u);
     "roles" := VMap (user_roles u);
     "is_super_admin" := VBool (user_is_super_admin u) ]}.

(** *** Masjid *)
Record Masjid := mkMasjid {
  masjid_name : string;
  masjid_address : option string;
  masjid_created_by_user_id : option string;
  masjid_support_whatsapp : option string }.

Definition Masjid_new (kw : pydict) : outcome Masjid :=
  name ← required kw "name" is_str;
  address ← defaulted kw "address" (optional is_str) None;
  created_by_user_id ← defaulted kw "created_by_user_id" (optional is_str) None;
  support_whatsapp ← defaulted kw "support_whatsapp" (optional is_str) None;
  mret (mkMasjid name address created_by_user_id support_whatsapp).

Global Instance Masjid_model : BaseModel Masjid := fun m =>
  {[ "name" := VStr (masjid_name m);
     "address" := dump_opt VStr (masjid_address m);
     "created_by_user_id" := dump_opt VStr (masjid_created_by_user_id m);
     "support_whatsapp" := dump_opt VStr (masjid_support_whatsapp m) ]}.

(** *** Project *)
Record Project := mkProject {
  project_masjid_id : string;
  project_title : string;
  project_description : option string;
  project_is_public : bool;
  project_landing_slug : option string;
  project_gpay_url : option string;
  project_gpay_upi : option string;
  project_gpay_qr_image : option string;
  project_allowed_frequencies : list string }.

Definition Project_new (kw : pydict) : outcome Project :=
  masjid_id ← required kw "masjid_id" is_str;
  title ← required kw "title" is_str;
  description ← defaulted kw "description" (optional is_str) None;
  is_public ← defaulted kw "is_public" is_bool true;
  landing_slug ← defaulted kw "landing_slug" (optional is_str) None;
  gpay_url ← defaulted kw "gpay_url" (optional is_str) None;
  gpay_upi ← defaulted kw "gpay_upi" (optional is_str) None;
  gpay_qr_image ← defaulted kw "gpay_qr_image" (optional is_str) None;
  allowed_frequencies ←
    defaulted kw "allowed_frequencies" (list_of_literal Frequency)
              ["one_time"; "weekly"; "monthly"; "yearly"];
  mret (mkProject masjid_id title description is_public landing_slug
                  gpay_url gpay_upi gpay_qr_image allowed_frequencies).

Global Instance Project_model : BaseModel Project := fun p =>
  {[ "masjid_id" := VStr (project_masjid_id p);
     "title" := VStr (project_title p);
     "description" := dump_opt VStr (project_description p);
     "is_public" := VBool (project_is_public p);
     "landing_slug" := dump_opt VStr (project_landing_slug p);
     "gpay_url" := dump_opt VStr (project_gpay_url p);
     "gpay_upi" := dump_opt VStr (project_gpay_upi p);
     "gpay_qr_image" := dump_opt VStr (project_gpay_qr_image p);
     "allowed_frequencies" := VList (project_allowed_frequencies p) ]}.

(** *** Participant *)
Record Participant := mkParticipant {
  participant_project_id : string;
  participant_user_id : string;
  participant_pledge_amount : option float;
  participant_frequency : option string;
  participant_preferred_mode : option string }.

Definition Participant_new (kw : pydict) : outcome Participant :=
  project_id ← required kw "project_id" is_str;
  user_id ← required kw "user_id" is_str;
  pledge_amount ←
    defaulted kw "pledge_amount" (optional (fun v => x ← is_float v; ge0 x)) None;
  frequency ← defaulted kw "frequency" (optional (literal Frequency)) None;
  preferred_mode ← defaulted kw "preferred_mode" (optional (literal PaymentMode)) None;
  mret (mkParticipant project_id user_id pledge_amount frequency preferred_mode).

Global Instance Participant_model : BaseModel Participant := fun p =>
  {[ "project_id" := VStr (participant_project_id p);
     "user_id" := VStr (participant_user_id p);
     "pledge_amount" := dump_opt VNum (participant_pledge_amount p);
     "frequency" := dump_opt VStr (participant_frequency p);
     "preferred_mode" := dump_opt VStr (participant_preferred_mode p) ]}.

(** *** Contribution *)
Record Contribution := mkContribution {
  contribution_project_id : string;
  contribution_user_id : option string;
  contribution_mobile : option string;
  contribution_name : option string;
  contribution_amount : float;
  contribution_mode : string;
  contribution_paid_at : option Z;
  contribution_note : option string;
  contribution_proof_url : option string;
  contribution_approved : bool }.

Definition Contribution_new (kw : pydict) : outcome Contribution :=
  project_id ← required kw "project_id" is_str;
  user_id ← defaulted kw "user_id" (optional is_str) None;
  mobile ← defaulted kw "mobile" (optional is_str) None;
  name ← defaulted kw "name" (optional is_str) None;
  amount ← required kw "amount" (fun v => x ← is_float v; gt0 x);
  mode ← required kw "mode" (literal PaymentMode);
  paid_at ← defaulted kw "paid_at" (optional is_datetime) None;
  note ← defaulted kw "note" (optional is_str) None;
  proof_url ← defaulted kw "proof_url" (optional is_str) None;
  approved ← defaulted kw "approved" is_bool true;
  mret (mkContribution project_id user_id mobile name amount mode paid_at
                       note proof_url approved).

Global Instance Contribution_model : BaseModel Contribution := fun c =>
  {[ "project_id" := VStr (contribution_project_id c);
     "user_id" := dump_opt VStr (contribution_user_id c);
     "mobile" := dump_opt VStr (contribution_mobile c);
     "name" := dump_opt VStr (contribution_name c);
     "amount" := VNum (contribution_amount c);
     "mode" := VStr (contribution_mode c);
     "paid_at" := dump_opt VDate (contribution_paid_at c);
     "note" := dump_opt VStr (contribution_note c);
     "proof_url" := dump_opt VStr (contribution_proof_url c);
     "approved" := VBool (contribution_approved c) ]}.

(** *** Expense *)
Record Expense := mkExpense {
  expense_masjid_id : string;
  expense_project_id : string;
  expense_amount : float;
  expense_description : string;
  expense_spent_at : option Z;
  expense_added_by_user_id : option string;
  expense_attachment_url : option string }.

Definition Expense_new (kw : pydict) : outcome Expense :=
  masjid_id ← required kw "masjid_id" is_str;
  project_id ← required kw "project_id" is_str;
  amount ← required kw "amount" (fun v => x ← is_float v; gt0 x);
  description ← required kw "description" is_str;
  spent_at ← defaulted kw "spent_at" (optional is_datetime) None;
  added_by_user_id ← defaulted kw "added_by_user_id" (optional is_str) None;
  attachment_url ← defaulted kw "attachment_url" (optional is_str) None;
  mret (mkExpense masjid_id project_id amount description spent_at
                  added_by_user_id attachment_url).

Global Instance Expense_model : BaseModel Expense := fun x =>
  {[ "masjid_id" := VStr (expense_masjid_id x);
     "project_id" := VStr (expense_project_id x);
     "amount" := VNum (expense_amount x);
     "description" := VStr (expense_description x);
     "spent_at" := dump_opt VDate (expense_spent_at x);
     "added_by_user_id" := dump_opt VStr (expense_added_by_user_id x);
     "attachment_url" := dump_opt VStr (expense_attachment_url x) ]}.

End Schemas.

(** ** The server side of a request: the [_id] the driver generates for a new
    document and the clock read at insertion. *)
Record env := Env { new_id : object_id; now : Z }.

(** ** database.py *)

Module Database.
Import Mongo Schemas.

(** Modelled from the spec: [database.py], which defines [create_document],
    is not among the sources.  Section 4.2: it serializes the validated
    entity, injects the server-set creation timestamp, inserts the document
    into the named collection and returns the new identifier as a string. *)
Definition create_document {A} `{BaseModel A} (e : env) (collection_name : string)
    (data : A) (db : gmap string (list document))
  : string * gmap string (list document) :=
  let data_dict := <["created_at" := VDate (now e)]> (model_dump data) in
  (Bson.str (new_id e), insert_one collection_name (Doc (new_id e) data_dict) db).

End Database.

(** ** main.py: the request handlers *)

Module Main.
Import Mongo Schemas Database.

(** A handler's result and the database it leaves behind. *)
Definition response (A : Type) : Type := outcome A * gmap string (list document).

Definition oid (id_str : string) : outcome object_id :=
  match Bson.ObjectId id_str with
  | Some o => Return o
  | None => Raise (HTTPException 400 "Invalid id")
  end.

(** [d["id"] = str(d.pop("_id"))] on a document read from a cursor. *)
Definition with_public_id (d : document) : pydict :=
  <["id" := VStr (Bson.str (doc_id d))]> (delete "_id" (as_dict d)).

(** *** Auth *)

Record LoginRequest := mkLoginRequest { login_mobile : string; login_otp : string }.

(** The part of [login] after the user document is in hand. *)
Definition check_otp (req : LoginRequest) (u : document) : outcome pydict :=
  let otp := Py.or (Py.get (as_dict u) "otp") (Py.get (as_dict u) "mobile") in
  if negb (Py.eqb (VStr (login_otp req)) otp)
  then Raise (HTTPException 401 "Invalid OTP")
  else Return (with_public_id u).

(** A document read from the store always has its [_id], so it is never an
    empty [dict]: [if not u] is the case where nothing matched. *)
Definition login (e : env) (req : LoginRequest) (db : gmap string (list document))
  : response pydict :=
  match find_one [("mobile", VStr (login_mobile req))] (collection db "user") with
  | Some u => (check_otp req u, db)
  | None =>
      (* auto create user with default otp=mobile *)
      match User_new {[ "mobile" := VStr (login_mobile req);
                        "otp" := VStr (login_mobile req) ]} with
      | Raise x => (Raise x, db)
      | Return user =>
          let '(uid, db1) := create_document e "user" user db in
          match Bson.ObjectId uid with
          | None => (Raise InvalidId, db1)
          | Some o =>
              match find_one [("_id", VOid o)] (collection db1 "user") with
              | None => (Raise AttributeError, db1)
              | Some u => (check_otp req u, db1)
              end
          end
      end
  end.

Record UpdateOtpRequest := mkUpdateOtpRequest { new_otp : string }.

Definition update_otp (e : env) (user_id : string) (body : UpdateOtpRequest)
    (db : gmap string (list document)) : response bool :=
  match oid user_id with
  | Raise x => (Raise x, db)
  | Return o =>
      match update_one "user" [("_id", VOid o)]
              (SetFields {[ "otp" := VStr (new_otp body) ]}) false (new_id e) db with
      | Raise x => (Raise x, db)
      | Return (matched_count, db1) =>
          if (matched_count =? 0)%nat
          then (Raise (HTTPException 404 "User not found"), db1)
          else (Return true, db1)
      end
  end.

(** *** Masjid management *)

Record CreateMasjid := mkCreateMasjid {
  cm_name : string;
  cm_address : option string;
  cm_support_whatsapp : option string;
  cm_owner_user_id : string }.

Definition create_masjid (e : env) (body : CreateMasjid)
    (db : gmap string (list document)) : response string :=
  match Masjid_new {[ "name" := VStr (cm_name body);
                      "address" := dump_opt VStr (cm_address body);
                      "created_by_user_id" := VStr (cm_owner_user_id body);
                      "support_whatsapp" := dump_opt VStr (cm_support_whatsapp body) ]} with
  | Raise x => (Raise x, db)
  | Return masjid =>
      let '(mid, db1) := create_document e "masjid" masjid db in
      (* grant admin role *)
      match oid (cm_owner_user_id body) with
      | Raise x => (Raise x, db1)
      | Return o =>
          match update_one "user" [("_id", VOid o)]
                  (SetDotted "roles" mid "admin") false (new_id e) db1 with
          | Raise x => (Raise x, db1)
          | Return (_, db2) => (Return mid, db2)
          end
      end
  end.

(** *** Projects *)

Record CreateProject := mkCreateProject {
  cp_masjid_id : string;
  cp_title : string;
  cp_description : option string;
  cp_is_public : bool;                              (* = True when omitted *)
  cp_landing_slug : option string;
  cp_gpay_url : option string;
  cp_gpay_upi : option string;
  cp_gpay_qr_image : option string;
  cp_allowed_frequencies : option (list string) }.  (* = None when omitted *)

Global Instance CreateProject_model : BaseModel CreateProject := fun b =>
  {[ "masjid_id" := VStr (cp_masjid_id b);
     "title" := VStr (cp_title b);
     "description" := dump_opt VStr (cp_description b);
     "is_public" := VBool (cp_is_public b);
     "landing_slug" := dump_opt VStr (cp_landing_slug b);
     "gpay_url" := dump_opt VStr (cp_gpay_url b);
     "gpay_upi" := dump_opt VStr (cp_gpay_upi b);
     "gpay_qr_image" := dump_opt VStr (cp_gpay_qr_image b);
     "allowed_frequencies" := dump_opt VList (cp_allowed_frequencies b) ]}.

Definition create_project (e : env) (body : CreateProject)
    (db : gmap string (list document)) : response string :=
  match Project_new (model_dump body) with
  | Raise x => (Raise x, db)
  | Return project =>
      let '(pid, db1) := create_document e "project" project db in
      (Return pid, db1)
  end.

(** *** Join project (pledge) *)

Record JoinProject := mkJoinProject {
  jp_project_id : string;
  jp_user_id : string;
  jp_pledge_amount : option float;
  jp_frequency : option string;
  jp_preferred_mode : option string }.

Global Instance JoinProject_model : BaseModel JoinProject := fun b =>
  {[ "project_id" := VStr (jp_project_id b);
     "user_id" := VStr (jp_user_id b);
     "pledge_amount" := dump_opt VNum (jp_pledge_amount b);
     "frequency" := dump_opt VStr (jp_frequency b);
     "preferred_mode" := dump_opt VStr (jp_preferred_mode b) ]}.

Definition join_project (e : env) (body : JoinProject)
    (db : gmap string (list document)) : response bool :=
  (* upsert participant *)
  match update_one "participant"
          [("project_id", VStr (jp_project_id body)); ("user_id", VStr (jp_user_id body))]
          (SetFields (model_dump body)) true (new_id e) db with
  | Raise x => (Raise x, db)
  | Return (_, db1) => (Return true, db1)
  end.

(** *** Contributions *)

Record AddContribution := mkAddContribution {
  ac_project_id : string;
  ac_user_id : option string;
  ac_mobile : option string;
  ac_name : option string;
  ac_amount : float;
  ac_mode : string;
  ac_note : option string;
  ac_proof_url : option string;
  ac_paid_at : option Z }.

Global Instance AddContribution_model : BaseModel AddContribution := fun b =>
  {[ "project_id" := VStr (ac_project_id b);
     "user_id" := dump_opt VStr (ac_user_id b);
     "mobile" := dump_opt VStr (ac_mobile b);
     "name" := dump_opt VStr (ac_name b);
     "amount" := VNum (ac_amount b);
     "mode" := VStr (ac_mode b);
     "note" := dump_opt VStr (ac_note b);
     "proof_url" := dump_opt VStr (ac_proof_url b);
     "paid_at" := dump_opt VDate (ac_paid_at b) ]}.

Definition add_contribution (e : env) (body : AddContribution)
    (db : gmap string (list document)) : response string :=
  match Contribution_new (model_dump body) with
  | Raise x => (Raise x, db)
  | Return c =>
      let '(cid, db1) := create_document e "contribution" c db in
      (Return cid, db1)
  end.

(** *** Expenses *)

Record AddExpense := mkAddExpense {
  ae_masjid_id : string;
  ae_project_id : string;
  ae_amount : float;
  ae_description : string;
  ae_spent_at : option Z;
  ae_added_by_user_id : option string;
  ae_attachment_url : option string }.

Global Instance AddExpense_model : BaseModel AddExpense := fun b =>
  {[ "masjid_id" := VStr (ae_masjid_id b);
     "project_id" := VStr (ae_project_id b);
     "amount" := VNum (ae_amount b);
     "description" := VStr (ae_description b);
     "spent_at" := dump_opt VDate (ae_spent_at b);
     "added_by_user_id" := dump_opt VStr (ae_added_by_user_id b);
     "attachment_url" := dump_opt VStr (ae_attachment_url b) ]}.

Definition add_expense (e : env) (body : AddExpense)
    (db : gmap string (list document)) : response string :=
  match Expense_new (model_dump body) with
  | Raise x => (Raise x, db)
  | Return x =>
      let '(eid, db1) := create_document e "expense" x db in
      (Return eid, db1)
  end.

(** *** Listings without totals *)

(** [GET /masjids]: every masjid, newest first. *)
Definition list_masjids (db : gmap string (list document)) : list pydict :=
  with_public_id <$> sort_desc "created_at" (find [] (collection db "masjid")).

(** [GET /projects/{masjid_id}] *)
Definition list_projects (masjid_id : string) (db : gmap string (list document))
  : list pydict :=
  with_public_id <$>
    sort_desc "created_at" (find [("masjid_id", VStr masjid_id)] (collection db "project")).

(** [GET /projects/{project_id}/participants]: no sort. *)
Definition list_participants (project_id : string) (db : gmap string (list document))
  : list pydict :=
  with_public_id <$> find [("project_id", VStr project_id)] (collection db "participant").

(** *** Aggregated views *)

Section Aggregation.

(** Python's [float(s)] on a string: the parsed number, or [None] when the
    text is not a number ([ValueError]).  The parser is the interpreter's
    and is left as a parameter. *)
Variable float_of_str : string → option float.

(** [float(v)] *)
Definition py_float (v : value) : outcome float :=
  match v with
  | VNum x => Return x
  | VBool b => Return (if b then 1%float else 0%float)
  | VStr s => match float_of_str s with
              | Some x => Return x
              | None => Raise ValueError
              end
  | _ => Raise TypeError
  end.

(** [for c in cursor: total += float(c.get("amount", 0))] *)
Fixpoint add_amounts (total : float) (cursor : list document) : outcome float :=
  match cursor with
  | [] => Return total
  | c :: rest =>
      x ← py_float (Py.get_default (as_dict c) "amount" (VNum 0%float));
      add_amounts (PrimFloat.add total x) rest
  end.

Record Ledger := mkLedger { contributed : float; spent : float; balance : float }.

Definition project_ledger (project_id : string) (db : gmap string (list document))
  : outcome Ledger :=
  contrib_total ←
    add_amounts 0%float
      (find [("project_id", VStr project_id); ("approved", VBool true)]
            (collection db "contribution"));
  expense_total ←
    add_amounts 0%float
      (find [("project_id", VStr project_id)] (collection db "expense"));
  let balance := PrimFloat.sub contrib_total expense_total in
  mret (mkLedger contrib_total expense_total balance).

(** The entry appended to [contribs] for a contribution [c]. *)
Definition display (c : pydict) : pydict :=
  {[ "name" := Py.or (Py.get c "name") (Py.get_default c "mobile" (VStr "Guest"));
     "amount" := Py.get c "amount";
     "paid_at" := Py.or (Py.get c "paid_at") (Py.get c "created_at") ]}.

(** The loop over the last 50 contributions. *)
Fixpoint recent_loop (total : float) (contribs : list pydict) (cursor : list document)
  : outcome (list pydict * float) :=
  match cursor with
  | [] => Return (contribs, total)
  | d :: rest =>
      let c := with_public_id d in
      x ← py_float (Py.get_default c "amount" (VNum 0%float));
      recent_loop (PrimFloat.add total x) (contribs ++ [display c])%list rest
  end.

Record PublicProject := mkPublicProject {
  pp_project : pydict;
  pp_recent_contributions : list pydict;
  pp_total : float }.

(** [if not p] is the case where [find_one] matched nothing, as in [login]. *)
Definition public_project (landing_slug : string) (db : gmap string (list document))
  : outcome PublicProject :=
  match find_one [("landing_slug", VStr landing_slug); ("is_public", VBool true)]
                 (collection db "project") with
  | None => Raise (HTTPException 404 "Project not found")
  | Some p0 =>
      let p := with_public_id p0 in
      r ← recent_loop 0%float []
            (limit 50 (sort_desc "created_at"
               (find [("project_id", Py.get p "id"); ("approved", VBool true)]
                     (collection db "contribution"))));
      mret (mkPublicProject p r.1 r.2)
  end.

(** The loop of [list_contributions] and of [list_expenses]:
    [r["id"] = str(r.pop("_id")); total += float(r.get("amount", 0));
    items.append(r)]. *)
Fixpoint list_loop (total : float) (items : list pydict) (cursor : list document)
  : outcome (list pydict * float) :=
  match cursor with
  | [] => Return (items, total)
  | d :: rest =>
      let r := with_public_id d in
      x ← py_float (Py.get_default r "amount" (VNum 0%float));
      list_loop (PrimFloat.add total x) (items ++ [r])%list rest
  end.

(** [GET /projects/{project_id}/contributions]: the items and their total. *)
Definition list_contributions (project_id : string) (db : gmap string (list document))
  : outcome (list pydict * float) :=
  list_loop 0%float []
    (sort_desc "created_at"
       (find [("project_id", VStr project_id); ("approved", VBool true)]
             (collection db "contribution"))).

(** [GET /projects/{project_id}/expenses] *)
Definition list_expenses (project_id : string) (db : gmap string (list document))
  : outcome (list pydict * float) :=
  list_loop 0%float []
    (sort_desc "created_at"
       (find [("project_id", VStr project_id)] (collection db "expense"))).

(** The two nested loops of [masjid_summary], over the project ids. *)
Fixpoint summary_loop (contrib_total expense_total : float) (pids : list string)
    (db : gmap string (list document)) : outcome (float * float) :=
  match pids with
  | [] => Return (contrib_total, expense_total)
  | pid :: rest =>
      c ← add_amounts contrib_total
            (find [("project_id", VStr pid); ("approved", VBool true)]
                  (collection db "contribution"));
      x ← add_amounts expense_total
            (find [("project_id", VStr pid)] (collection db "expense"));
      summary_loop c x rest db
  end.

Record MasjidSummary := mkMasjidSummary {
  ms_projects : nat;
  ms_contributed : float;
  ms_spent : float;
  ms_balance : float }.

(** [GET /admin/{masjid_id}/summary] *)
Definition masjid_summary (masjid_id : string) (db : gmap string (list document))
  : outcome MasjidSummary :=
  let projects := find [("masjid_id", VStr masjid_id)] (collection db "project") in
  let pids := (fun p => Bson.str (doc_id p)) <$> projects in
  t ← summary_loop 0%float 0%float pids db;
  mret (mkMasjidSummary (length projects) t.1 t.2 (PrimFloat.sub t.1 t.2)).

Record SuperSummary := mkSuperSummary {
  ss_masjids : nat;
  ss_projects : nat;
  ss_contributed : float;
  ss_spent : float;
  ss_balance : float }.

(** [GET /super/summary] *)
Definition super_summary (db : gmap string (list document)) : outcome SuperSummary :=
  contrib_total ←
    add_amounts 0%float (find [("approved", VBool true)] (collection db "contribution"));
  expense_total ← add_amounts 0%float (find [] (collection db "expense"));
  let masjids := count_documents [] (collection db "masjid") in
  let projects := count_documents [] (collection db "project") in
  mret (mkSuperSummary masjids projects contrib_total expense_total
                       (PrimFloat.sub contrib_total expense_total)).

End Aggregation.

End Main.

(** * Vocabulary of the properties, sample requests and sample stores *)

Import Mongo Schemas Database Main.

(** A filter on one string field. *)
Definition str_field (k s : string) (d : document) : bool :=
  match doc_fields d !! k with
  | Some (VStr s') => String.eqb s' s
  | _ => false
  end.

(** A filter on one boolean field being [True]. *)
Definition true_field (k : string) (d : document) : bool :=
  match doc_fields d !! k with
  | Some (VBool b) => b
  | _ => false
  end.

(** The sum of a list of floats, added left to right from [0.0]. *)
Definition float_sum (l : list float) : float := foldl PrimFloat.add 0%float l.

(** The amount a record carries: its [amount] field, [0] when it has none. *)
Definition amount_of (d : document) : float :=
  match doc_fields d !! "amount" with
  | Some (VNum x) => x
  | _ => 0%float
  end.

(** A record whose [amount], when present, is a number; every record written
    by [add_contribution] and [add_expense] is one. *)
Definition numeric_amount (d : document) : Prop :=
  match doc_fields d !! "amount" with
  | None | Some (VNum _) => True
  | Some _ => False
  end.

(** The contributions of a project that count: [project_id] is the project
    and [approved] is [True]. *)
Definition approved_contributions (project_id : string)
    (db : gmap string (list document)) : list document :=
  List.filter (fun d => str_field "project_id" project_id d && true_field "approved" d)
              (collection db "contribution").

Definition project_expenses (project_id : string)
    (db : gmap string (list document)) : list document :=
  List.filter (str_field "project_id" project_id) (collection db "expense").

(** ** Sample requests and stores *)

(** A stored contribution and a stored expense with the fields the ledger
    reads. *)
Definition contribution_record (i pid : string) (amount : float) (approved : bool) : document :=
  Doc (Oid i) {[ "project_id" := VStr pid; "amount" := VNum amount;
                 "mode" := VStr "direct"; "approved" := VBool approved ]}.

Definition expense_record (i pid : string) (amount : float) : document :=
  Doc (Oid i) {[ "project_id" := VStr pid; "amount" := VNum amount;
                 "description" := VStr "repairs" ]}.

(** A store for the ledger: project [p1] has approved contributions of 200 and
    300, one unapproved contribution of 1000, and expenses of 100 and 50;
    project [p2] has its own records. *)
Definition ledger_db : gmap string (list document) :=
  {[ "contribution" := [ contribution_record "c1" "p1" 200 true;
                         contribution_record "c2" "p2" 70 true;
                         contribution_record "c3" "p1" 1000 false;
                         contribution_record "c4" "p1" 300 true ];
     "expense" := [ expense_record "x1" "p1" 100;
                    expense_record "x2" "p2" 5;
                    expense_record "x3" "p1" 50 ] ]}.

(** The record that [Contribution] builds from the body's fields when the body
    validates; [approved] takes its default. *)
Definition contribution_of (body : AddContribution) : Contribution :=
  mkContribution (ac_project_id body) (ac_user_id body) (ac_mobile body) (ac_name body)
                 (ac_amount body) (ac_mode body) (ac_paid_at body) (ac_note body)
                 (ac_proof_url body) true.

(** Python's [0.01]: the binary64 number nearest to one hundredth. *)
Definition one_cent : float := 0x1.47ae147ae147bp-7%float.

(** The identifier the driver generates and the clock for one request. *)
Definition env0 : env := Env (Oid "65f0a1b2c3d4e5f601234567") 1700000000.

(** A contribution by a guest, of a given amount, paid by GPay. *)
Definition guest_contribution (amount : float) : AddContribution :=
  mkAddContribution "65f0a1b2c3d4e5f6012345aa" None None None amount "gpay" None None None.

(** A pledge with a negative amount and a frequency that is not one of the
    four. *)
Definition bad_join : JoinProject :=
  mkJoinProject "65f0a1b2c3d4e5f6012345aa" "65f0a1b2c3d4e5f6012345bb"
                (Some (-5)%float) (Some "daily") None.

(** The project [Project] builds from a body when the [allowed_frequencies]
    key is left out of the keyword arguments. *)
Definition project_with_default_frequencies (body : CreateProject) : Project :=
  mkProject (cp_masjid_id body) (cp_title body) (cp_description body) (cp_is_public body)
            (cp_landing_slug body) (cp_gpay_url body) (cp_gpay_upi body)
            (cp_gpay_qr_image body) ["one_time"; "weekly"; "monthly"; "yearly"].

(** A create-project request that leaves [allowed_frequencies] out. *)
Definition roof_project : CreateProject :=
  mkCreateProject "65f0a1b2c3d4e5f6012345cc" "Roof repair" None true (Some "roof")
                  None None None None.

(** A project that the landing page may show under [slug]. *)
Definition public_with_slug (slug : string) (p : document) : Prop :=
  doc_fields p !! "landing_slug" = Some (VStr slug)
  ∧ doc_fields p !! "is_public" = Some (VBool true).

(** Three requests: a public project under the slug [roof], a private one
    under [hall], and a guest contribution to the first, sent without name,
    mobile or payment time. *)
Definition env_roof : env := Env (Oid "65f0a1b2c3d4e5f601234501") 1700000000.
Definition env_hall : env := Env (Oid "65f0a1b2c3d4e5f601234502") 1700000100.
Definition env_gift : env := Env (Oid "65f0a1b2c3d4e5f601234503") 1700000500.

Definition public_roof : CreateProject :=
  mkCreateProject "65f0a1b2c3d4e5f6012345cc" "Roof repair" None true (Some "roof")
                  None None None (Some ["one_time"; "monthly"]).

Definition private_hall : CreateProject :=
  mkCreateProject "65f0a1b2c3d4e5f6012345cc" "Hall" None false (Some "hall")
                  None None None (Some ["one_time"]).

Definition guest_gift : AddContribution :=
  mkAddContribution "65f0a1b2c3d4e5f601234501" None None None 25 "direct" None None None.

(** The records those requests store, and the store holding them. *)
Definition roof_record : document :=
  Doc (new_id env_roof)
      (<["created_at" := VDate (now env_roof)]>
         (model_dump (mkProject "65f0a1b2c3d4e5f6012345cc" "Roof repair" None true
                                (Some "roof") None None None ["one_time"; "monthly"]))).

Definition hall_record : document :=
  Doc (new_id env_hall)
      (<["created_at" := VDate (now env_hall)]>
         (model_dump (mkProject "65f0a1b2c3d4e5f6012345cc" "Hall" None false
                                (Some "hall") None None None ["one_time"]))).

Definition guest_record : document :=
  Doc (new_id env_gift)
      (<["created_at" := VDate (now env_gift)]>
         (model_dump (mkContribution "65f0a1b2c3d4e5f601234501" None None None 25
                                     "direct" None None None true))).

Definition landing_db : gmap string (list document) :=
  {[ "project" := [roof_record; hall_record]; "contribution" := [guest_record] ]}.

(** The participant records of user [U] in project [P]. *)
Definition participants_of (P U : string) (db : gmap string (list document)) : list document :=
  List.filter (fun d => str_field "project_id" P d && str_field "user_id" U d)
              (collection db "participant").

(** The filter [join_project] sends. *)
Definition pair_query (P U : string) : query :=
  [("project_id", VStr P); ("user_id", VStr U)].

(** Two pledges of the same user to the same project. *)
Definition first_join : JoinProject :=
  mkJoinProject "65f0a1b2c3d4e5f601234501" "65f0a1b2c3d4e5f6012345bb"
                (Some 100%float) (Some "monthly") (Some "gpay").

Definition second_join : JoinProject :=
  mkJoinProject "65f0a1b2c3d4e5f601234501" "65f0a1b2c3d4e5f6012345bb"
                (Some 200%float) (Some "weekly") None.

(** A store with one user, as [login] provisions it. *)
Definition env_user : env := Env (Oid "65f0a1b2c3d4e5f6012345bb") 1699990000.

Definition users_db : gmap string (list document) :=
  (login env_user (mkLoginRequest "5550100" "5550100") ∅).2.

(** The user [login] provisions for an unknown mobile. *)
Definition provisioned_user (e : env) (mobile : string) : document :=
  Doc (new_id e)
      (<["created_at" := VDate (now e)]>
         (model_dump (mkUser mobile None (Some mobile) ∅ false))).

(** The masjid record [create_masjid] stores. *)
Definition masjid_record (e : env) (body : CreateMasjid) : document :=
  Doc (new_id e)
      (<["created_at" := VDate (now e)]>
         (model_dump (mkMasjid (cm_name body) (cm_address body)
                               (Some (cm_owner_user_id body)) (cm_support_whatsapp body)))).

(** The requests that write to the store. *)
Inductive request :=
| PostLogin (req : LoginRequest)
| PostUpdateOtp (user_id : string) (body : UpdateOtpRequest)
| PostMasjid (body : CreateMasjid)
| PostProject (body : CreateProject)
| PostJoin (body : JoinProject)
| PostContribution (body : AddContribution)
| PostExpense (body : AddExpense).

(** The store a request leaves behind, whether it succeeded or not. *)
Definition serve (e : env) (r : request) (db : gmap string (list document))
  : gmap string (list document) :=
  match r with
  | PostLogin req => (login e req db).2
  | PostUpdateOtp user_id body => (update_otp e user_id body db).2
  | PostMasjid body => (create_masjid e body db).2
  | PostProject body => (create_project e body db).2
  | PostJoin body => (join_project e body db).2
  | PostContribution body => (add_contribution e body db).2
  | PostExpense body => (add_expense e body db).2
  end.

(** The stores that arise from the empty database by serving requests. *)
Inductive reachable : gmap string (list document) → Prop :=
| reachable_empty : reachable ∅
| reachable_serve (e : env) (r : request) (db : gmap string (list document)) :
    reachable db → reachable (serve e r db).

(** Every contribution and expense record carries a numeric amount. *)
Definition numeric_store (db : gmap string (list document)) : Prop :=
  Forall numeric_amount (collection db "contribution")
  ∧ Forall numeric_amount (collection db "expense").

(** No pair [(project_id, user_id)] has two participant records. *)
Definition unique_participants (db : gmap string (list document)) : Prop :=
  ∀ P U, (length (participants_of P U db) ≤ 1)%nat.

(** ** Vocabulary of the listings and summaries *)

(** The amount an item of a response shows: its [amount] field, [0] when it
    has none. *)
Definition item_amount (item : pydict) : float :=
  match item !! "amount" with
  | Some (VNum x) => x
  | _ => 0%float
  end.

(** A record is at least as new as another: its [created_at] is not earlier. *)
Definition not_older (a b : document) : Prop :=
  key_ge (sort_key "created_at" a) (sort_key "created_at" b) = true.

(** Newest first: every record is at least as new as every record after it. *)
Definition newest_first (l : list document) : Prop := StronglySorted not_older l.

(** An item of a response carries the public [id] and not the internal
    [_id]. *)
Definition has_public_id (item : pydict) : Prop :=
  item !! "_id" = None ∧ ∃ s, item !! "id" = Some (VStr s).

(** The projects of a masjid, in store order. *)
Definition projects_of (masjid_id : string) (db : gmap string (list document))
  : list document :=
  List.filter (str_field "masjid_id" masjid_id) (collection db "project").

(** The role map of a user: its [roles] sub-document, empty when the field is
    missing; [None] when [roles] holds something that is not a sub-document. *)
Definition roles_of (u : document) : option (gmap string string) :=
  match doc_fields u !! "roles" with
  | None => Some ∅
  | Some (VMap m) => Some m
  | Some _ => None
  end.

(** The project [Project] builds from a body whose [allowed_frequencies] is
    the list [l]. *)
Definition project_with_frequencies (body : CreateProject) (l : list string) : Project :=
  mkProject (cp_masjid_id body) (cp_title body) (cp_description body) (cp_is_public body)
            (cp_landing_slug body) (cp_gpay_url body) (cp_gpay_upi body)
            (cp_gpay_qr_image body) l.

(** The contributions of a project, approved or not. *)
Definition project_contributions (project_id : string)
    (db : gmap string (list document)) : list document :=
  List.filter (str_field "project_id" project_id) (collection db "contribution").

(** A contribution record marked approved. *)
Definition is_approved (d : document) : Prop :=
  doc_fields d !! "approved" = Some (VBool true).

(** The identifiers of a collection, in store order. *)
Definition ids_of (name : string) (db : gmap string (list document)) : list object_id :=
  doc_id <$> collection db name.

(** The second store keeps every document of the first, in the same order
    and in the same collection, before whatever it adds. *)
Definition keeps_documents (db db' : gmap string (list document)) : Prop :=
  ∀ name, ids_of name db `prefix_of` ids_of name db'.

(** The approved contributions of all the projects of a masjid, project after
    project, and likewise their expenses. *)
Definition masjid_contributions (masjid_id : string)
    (db : gmap string (list document)) : list document :=
  projects_of masjid_id db ≫= (fun p => approved_contributions (Bson.str (doc_id p)) db).

Definition masjid_expenses (masjid_id : string)
    (db : gmap string (list document)) : list document :=
  projects_of masjid_id db ≫= (fun p => project_expenses (Bson.str (doc_id p)) db).

(** The contributions the landing page of a project shows: its approved
    contributions, newest first, cut after fifty. *)
Definition recent_contributions (project_id : string)
    (db : gmap string (list document)) : list document :=
  take 50 (sort_desc "created_at" (approved_contributions project_id db)).

(** A store with the [roof] project alone and its guest contribution. *)
Definition roof_db : gmap string (list document) :=
  {[ "project" := [roof_record]; "contribution" := [guest_record] ]}.

(** * Properties *)

(** ** Facts about the store *)

Section StoreFacts.

Lemma as_dict_field (d : document) (k : string) :
  k ≠ "_id" → as_dict d !! k = doc_fields d !! k.
Proof. intros Hk. unfold as_dict. by rewrite lookup_insert_ne. Qed.

Lemma as_dict_id (d : document) : as_dict d !! "_id" = Some (VOid (doc_id d)).
Proof. unfold as_dict. by rewrite lookup_insert_eq. Qed.

Lemma oid_eqb_eq (a b : object_id) :
  String.eqb (oid_hex a) (oid_hex b) = true ↔ a = b.
Proof.
  destruct a as [x], b as [y]; simpl. rewrite String.eqb_eq.
  split; [intros ->; reflexivity | intros [= ->]; reflexivity].
Qed.

(** A filter on [_id] selects by identifier. *)
Lemma matches_id (o : object_id) (d : document) :
  matches [("_id", VOid o)] d = true ↔ doc_id d = o.
Proof.
  unfold matches; simpl. rewrite as_dict_id; simpl.
  rewrite andb_true_r. apply oid_eqb_eq.
Qed.

Lemma matches_id_false (o : object_id) (d : document) :
  doc_id d ≠ o → matches [("_id", VOid o)] d = false.
Proof.
  intros Hne. destruct (matches [("_id", VOid o)] d) eqn:E; [|done].
  by apply matches_id in E.
Qed.

Lemma eqb_str_r (v : value) (s : string) :
  Py.eqb v (VStr s) = match v with VStr s' => String.eqb s' s | _ => false end.
Proof. by destruct v. Qed.

Lemma eqb_true_r (v : value) :
  Py.eqb v (VBool true) = match v with VBool b => b | _ => false end.
Proof. destruct v as [|[]| | | | | |]; reflexivity. Qed.

Lemma matches_cons_str (k s : string) (q : query) (d : document) :
  k ≠ "_id" → matches ((k, VStr s) :: q) d = str_field k s d && matches q d.
Proof.
  intros Hk. unfold matches, str_field; simpl. rewrite as_dict_field by done.
  destruct (doc_fields d !! k) as [v|]; [|done]. by rewrite eqb_str_r.
Qed.

Lemma matches_cons_true (k : string) (q : query) (d : document) :
  k ≠ "_id" → matches ((k, VBool true) :: q) d = true_field k d && matches q d.
Proof.
  intros Hk. unfold matches, true_field; simpl. rewrite as_dict_field by done.
  destruct (doc_fields d !! k) as [v|]; [|done]. by rewrite eqb_true_r.
Qed.

Lemma matches_nil (d : document) : matches [] d = true.
Proof. reflexivity. Qed.

Lemma find_ext (q : query) (p : document → bool) (c : list document) :
  (∀ d, matches q d = p d) → find q c = List.filter p c.
Proof. intros H. unfold find. apply filter_ext. exact H. Qed.

Lemma collection_insert_one (name : string) (d : document)
    (db : gmap string (list document)) :
  collection (insert_one name d db) name = (collection db name ++ [d])%list.
Proof. unfold insert_one, collection at 1. by rewrite lookup_insert_eq. Qed.

Lemma collection_insert_one_ne (name name' : string) (d : document)
    (db : gmap string (list document)) :
  name ≠ name' → collection (insert_one name d db) name' = collection db name'.
Proof. intros Hne. unfold insert_one, collection at 1. by rewrite lookup_insert_ne. Qed.

Lemma find_app (q : query) (c1 c2 : list document) :
  find q (c1 ++ c2)%list = (find q c1 ++ find q c2)%list.
Proof. unfold find. apply filter_app. Qed.

Lemma find_nil_forall (q : query) (c : list document) :
  (∀ d, d ∈ c → matches q d = false) → find q c = [].
Proof.
  induction c as [|x c IH]; intros H; [done|].
  unfold find in *; simpl. rewrite (H x) by left.
  apply IH. intros d Hd. apply H. by right.
Qed.


Lemma str_field_true (k s : string) (d : document) :
  str_field k s d = true ↔ doc_fields d !! k = Some (VStr s).
Proof.
  unfold str_field. destruct (doc_fields d !! k) as [[]|]; try (split; congruence).
  rewrite String.eqb_eq. split; [by intros -> | by intros [= ->]].
Qed.

Lemma true_field_true (k : string) (d : document) :
  true_field k d = true ↔ doc_fields d !! k = Some (VBool true).
Proof.
  unfold true_field. destruct (doc_fields d !! k) as [[|[]| | | | | |]|];
    split; congruence.
Qed.

Lemma find_one_Some (q : query) (c : list document) (d : document) :
  find_one q c = Some d → d ∈ c ∧ matches q d = true.
Proof.
  unfold find_one, find. intros H.
  assert (Hin : In d (List.filter (matches q) c)).
  { destruct (List.filter (matches q) c) as [|x l]; [done|].
    simpl in H. injection H as ->. by left. }
  apply filter_In in Hin as [Hin Hm]. split; [by apply list_elem_of_In | done].
Qed.

Lemma find_one_None (q : query) (c : list document) :
  (∀ d, d ∈ c → matches q d = false) → find_one q c = None.
Proof. intros H. unfold find_one. by rewrite find_nil_forall. Qed.

End StoreFacts.

(** ** Project ledger *)

Section LedgerFacts.

Variable float_of_str : string → option float.

Lemma find_approved_contributions (project_id : string) (db : gmap string (list document)) :
  find [("project_id", VStr project_id); ("approved", VBool true)]
       (collection db "contribution")
  = approved_contributions project_id db.
Proof.
  apply find_ext. intros d.
  rewrite matches_cons_str, matches_cons_true, matches_nil by done.
  by rewrite andb_true_r.
Qed.

Lemma find_project_expenses (project_id : string) (db : gmap string (list document)) :
  find [("project_id", VStr project_id)] (collection db "expense")
  = project_expenses project_id db.
Proof.
  apply find_ext. intros d.
  rewrite matches_cons_str, matches_nil by done. by rewrite andb_true_r.
Qed.

Lemma py_float_amount (d : document) :
  numeric_amount d →
  py_float float_of_str (Py.get_default (as_dict d) "amount" (VNum 0%float))
  = Return (amount_of d).
Proof.
  unfold numeric_amount, amount_of, Py.get_default.
  rewrite as_dict_field by done.
  destruct (doc_fields d !! "amount") as [[]|]; simpl; done.
Qed.

(** The accumulating loop is the left-to-right sum of the amounts. *)
Lemma add_amounts_foldl (total : float) (cursor : list document) :
  Forall numeric_amount cursor →
  add_amounts float_of_str total cursor
  = Return (foldl PrimFloat.add total (amount_of <$> cursor)).
Proof.
  intros H. revert total.
  induction H as [|d cursor Hd _ IH]; intros total; [done|].
  simpl. rewrite py_float_amount by done. simpl. apply IH.
Qed.

Lemma Forall_filter_bool {A} (P : A → Prop) (p : A → bool) (l : list A) :
  Forall P l → Forall P (List.filter p l).
Proof.
  induction 1 as [|x l Hx _ IH]; simpl; [constructor|].
  destruct (p x); [by constructor | done].
Qed.

(** C1. For every project identifier, on a store whose contribution and
    expense records carry numeric amounts, the ledger returns [contributed]
    = the sum of [amount] over the contributions with that [project_id] and
    [approved = True], [spent] = the sum of [amount] over the expenses with
    that [project_id], and [balance = contributed - spent]; a contribution
    that is not approved leaves the ledger as it was. *)
Theorem project_ledger_sums (project_id : string) (db : gmap string (list document)) :
  numeric_store db →
  let c := float_sum (amount_of <$> approved_contributions project_id db) in
  let s := float_sum (amount_of <$> project_expenses project_id db) in
  project_ledger float_of_str project_id db
    = Return (mkLedger c s (PrimFloat.sub c s))
  ∧ ∀ d : document,
      true_field "approved" d = false →
      project_ledger float_of_str project_id (insert_one "contribution" d db)
      = project_ledger float_of_str project_id db.
Proof.
  intros [Hc He] c s. split.
  - unfold project_ledger.
    rewrite find_approved_contributions, find_project_expenses.
    rewrite !add_amounts_foldl by (by apply Forall_filter_bool).
    reflexivity.
  - intros d Hd. unfold project_ledger.
    rewrite !find_approved_contributions, !find_project_expenses.
    unfold approved_contributions, project_expenses.
    rewrite collection_insert_one, collection_insert_one_ne by done.
    rewrite filter_app. simpl. rewrite Hd, andb_false_r.
    by rewrite app_nil_r.
Qed.

End LedgerFacts.

Lemma project_ledger_sums_witness :
  numeric_store ledger_db
  ∧ project_ledger (fun _ => None) "p1" ledger_db = Return (mkLedger 500 150 350).
Proof.
  assert (Hn : numeric_store ledger_db) by (split; repeat constructor).
  split; [exact Hn|].
  destruct (project_ledger_sums (fun _ => None) "p1" ledger_db Hn) as [H _].
  rewrite H. vm_compute. reflexivity.
Defined.

(** ** Schema validation of request bodies *)

(** A float that is zero or negative is not greater than zero. *)
Lemma not_positive (x : float) :
  PrimFloat.eqb x 0%float = true ∨ PrimFloat.ltb x 0%float = true →
  PrimFloat.ltb 0%float x = false.
Proof.
  rewrite FloatAxioms.eqb_spec, !FloatAxioms.ltb_spec.
  change (Prim2SF 0%float) with (S754_zero false).
  destruct (Prim2SF x) as [s|s| |s m e']; try destruct s;
    unfold SFeqb, SFltb; simpl; intuition congruence.
Qed.

Lemma optional_dump_str (o : option string) :
  optional is_str (dump_opt VStr o) = Some o.
Proof. by destruct o. Qed.

Lemma optional_dump_date (o : option Z) :
  optional is_datetime (dump_opt VDate o) = Some o.
Proof. by destruct o. Qed.

(** Run a model constructor on keyword arguments written out as a map: look
    every field up, then validate the optional fields that were dumped. *)
Ltac run_model :=
  unfold required, defaulted; simplify_map_eq;
  rewrite ?optional_dump_str, ?optional_dump_date.

Lemma Contribution_new_rejects (body : AddContribution) :
  PrimFloat.ltb 0%float (ac_amount body) = false →
  Contribution_new (model_dump body) = Raise ValidationError.
Proof.
  intros H. unfold Contribution_new, model_dump, AddContribution_model. run_model.
  unfold gt0. by rewrite H.
Qed.

Lemma Contribution_new_accepts (body : AddContribution) :
  PrimFloat.ltb 0%float (ac_amount body) = true →
  ac_mode body ∈ PaymentMode →
  Contribution_new (model_dump body) = Return (contribution_of body).
Proof.
  intros H Hm. unfold Contribution_new, model_dump, AddContribution_model. run_model.
  unfold gt0. rewrite H. by rewrite bool_decide_eq_true_2.
Qed.

(** ** Adding a contribution *)

(** C2, as stated, fails: a contribution with [amount = 0] is refused by an
    exception that no handler catches, so the client is answered with a server
    fault (500) and not with a client error. *)
Lemma add_contribution_zero_is_server_fault :
  ∃ (e : env) (body : AddContribution) (db : gmap string (list document)),
    PrimFloat.eqb (ac_amount body) 0%float = true
    ∧ (add_contribution e body db).1 = Raise ValidationError
    ∧ is_client_error (status_of (add_contribution e body db).1) = false
    ∧ is_server_fault (status_of (add_contribution e body db).1) = true.
Proof.
  exists env0, (guest_contribution 0%float), ∅. repeat split; vm_compute; reflexivity.
Qed.

(** C2, amended. For every add-contribution request: if [amount = 0] or
    [amount < 0] the handler raises the schema's validation error, which it does
    not turn into an HTTP error, so the request fails as a server fault (500)
    and nothing is stored; if [amount = 0.01] and the mode is one of the payment
    modes, the request succeeds, stores the record and returns its
    identifier. *)
Theorem add_contribution_amount_boundary (e : env) (body : AddContribution)
    (db : gmap string (list document)) :
  (PrimFloat.eqb (ac_amount body) 0%float = true
   ∨ PrimFloat.ltb (ac_amount body) 0%float = true →
   add_contribution e body db = (Raise ValidationError, db)
   ∧ status_of (add_contribution e body db).1 = 500)
  ∧ (ac_amount body = one_cent →
     ac_mode body ∈ PaymentMode →
     add_contribution e body db
     = (Return (Bson.str (new_id e)),
        insert_one "contribution"
          (Doc (new_id e)
               (<["created_at" := VDate (now e)]> (model_dump (contribution_of body))))
          db)).
Proof.
  split.
  - intros H%not_positive. unfold add_contribution.
    rewrite Contribution_new_rejects by done. done.
  - intros Ha Hm. unfold add_contribution.
    rewrite Contribution_new_accepts; [done| |done].
    rewrite Ha. reflexivity.
Qed.

Lemma add_contribution_amount_boundary_witness :
  add_contribution env0 (guest_contribution (-5)%float) ∅ = (Raise ValidationError, ∅)
  ∧ (add_contribution env0 (guest_contribution one_cent) ∅).1
    = Return "65f0a1b2c3d4e5f601234567".
Proof.
  split.
  - apply (add_contribution_amount_boundary env0 (guest_contribution (-5)%float) ∅).
    right. reflexivity.
  - destruct (add_contribution_amount_boundary env0 (guest_contribution one_cent) ∅)
      as [_ H].
    rewrite H; [reflexivity | reflexivity | ].
    unfold PaymentMode. simpl. set_solver.
Defined.

(** ** Joining a project *)

(** A [$set] of plain fields is never refused. *)
Lemma update_first_set_fields (q : query) (upd : pydict) (c : list document) :
  update_first q (SetFields upd) c ≠ Some None.
Proof.
  induction c as [|d c IH]; simpl; [done|].
  destruct (matches q d); [done|].
  destruct (update_first q (SetFields upd) c) as [[?|]|]; simpl; congruence.
Qed.

(** [join_project] writes whatever the body carries: the update cannot fail. *)
Lemma join_project_ok (e : env) (body : JoinProject) (db : gmap string (list document)) :
  (join_project e body db).1 = Return true.
Proof.
  unfold join_project, update_one.
  destruct (update_first _ _ _) as [[c'|]|] eqn:E; simpl; try done.
  by apply update_first_set_fields in E.
Qed.

(** C3 (the code departs from the claim). A join request with
    [pledge_amount = -5] and [frequency = "daily"] violates both constraints of
    the [Participant] schema, yet [join_project] never builds a [Participant]:
    the request succeeds and the record is written as sent. *)
Theorem join_project_skips_participant_validation :
  Participant_new (model_dump bad_join) = Raise ValidationError
  ∧ (join_project env0 bad_join ∅).1 = Return true
  ∧ ∃ d : document,
      collection (join_project env0 bad_join ∅).2 "participant" = [d]
      ∧ doc_fields d !! "pledge_amount" = Some (VNum (-5)%float)
      ∧ doc_fields d !! "frequency" = Some (VStr "daily").
Proof.
  split; [vm_compute; reflexivity|]. split; [vm_compute; reflexivity|].
  eexists. split; [vm_compute; reflexivity|]. split; reflexivity.
Qed.

(** ** Creating a project *)

(** C4 (the code departs from the claim). A create-project request that omits
    [allowed_frequencies] reaches [Project] with the key present and holding
    [None], which is not a list: the schema's default never applies, the
    request fails with an uncaught validation error (500) and nothing is
    stored.  Had the key been absent, the schema would have supplied all four
    frequencies. *)
Theorem create_project_without_frequencies_fails (e : env) (body : CreateProject)
    (db : gmap string (list document)) :
  cp_allowed_frequencies body = None →
  create_project e body db = (Raise ValidationError, db)
  ∧ status_of (create_project e body db).1 = 500
  ∧ Project_new (delete "allowed_frequencies" (model_dump body))
    = Return (project_with_default_frequencies body).
Proof.
  intros H.
  assert (Hnew : Project_new (model_dump body) = Raise ValidationError).
  { unfold Project_new, model_dump, CreateProject_model. run_model. by rewrite H. }
  unfold create_project. rewrite Hnew. split; [done|]. split; [done|].
  unfold Project_new, model_dump, CreateProject_model. by run_model.
Qed.

Lemma create_project_without_frequencies_fails_witness :
  cp_allowed_frequencies roof_project = None
  ∧ create_project env0 roof_project ∅ = (Raise ValidationError, ∅).
Proof.
  split; [reflexivity|].
  apply (create_project_without_frequencies_fails env0 roof_project ∅). reflexivity.
Defined.

(** ** Public landing page *)

Section LandingFacts.

Variable float_of_str : string → option float.

Lemma matches_public_slug (slug : string) (p : document) :
  matches [("landing_slug", VStr slug); ("is_public", VBool true)] p = true
  ↔ public_with_slug slug p.
Proof.
  rewrite matches_cons_str, matches_cons_true, matches_nil by done.
  rewrite andb_true_r, andb_true_iff, str_field_true, true_field_true. done.
Qed.

(** C6. The landing endpoint returns data only when some project has the
    given [landing_slug] and [is_public = True]; when no project is both, the
    request fails with 404 "Project not found", and this response is the same
    whether the slug belongs to a private project or to no project at all. *)
Theorem public_project_only_public (slug : string) (db : gmap string (list document)) :
  (∀ r, public_project float_of_str slug db = Return r →
        ∃ p, p ∈ collection db "project" ∧ public_with_slug slug p)
  ∧ ((∀ p, p ∈ collection db "project" → ¬ public_with_slug slug p) →
     public_project float_of_str slug db = Raise (HTTPException 404 "Project not found"))
  ∧ (∀ db' : gmap string (list document),
       (∀ p, p ∈ collection db "project" →
             doc_fields p !! "landing_slug" = Some (VStr slug) →
             doc_fields p !! "is_public" = Some (VBool false)) →
       (∀ p, p ∈ collection db' "project" →
             doc_fields p !! "landing_slug" ≠ Some (VStr slug)) →
       public_project float_of_str slug db = public_project float_of_str slug db').
Proof.
  assert (Hnone : ∀ db0 : gmap string (list document),
             (∀ p, p ∈ collection db0 "project" → ¬ public_with_slug slug p) →
             public_project float_of_str slug db0
             = Raise (HTTPException 404 "Project not found")).
  { intros db0 H. unfold public_project. rewrite find_one_None; [done|].
    intros p Hp. specialize (H p Hp). rewrite <- matches_public_slug in H.
    by destruct (matches _ p). }
  split; [|split].
  - intros r Hr. unfold public_project in Hr.
    destruct (find_one _ _) as [p0|] eqn:E; [|done].
    apply find_one_Some in E as [Hin Hm]. exists p0. split; [done|].
    by apply matches_public_slug.
  - apply Hnone.
  - intros db' Hpriv Habsent. rewrite (Hnone db), (Hnone db'); [done| |].
    + intros p Hp [Hs _]. by apply (Habsent p Hp).
    + intros p Hp [Hs Hpub]. specialize (Hpriv p Hp Hs). congruence.
Qed.

(** What the display name of an entry is, case by case. *)
Lemma display_name (c : pydict) :
  display c !! "name"
  = Some (if Py.truthy (Py.get c "name") then Py.get c "name"
          else match c !! "mobile" with
               | Some v => v
               | None => VStr "Guest"
               end).
Proof.
  unfold display. simplify_map_eq. unfold Py.or, Py.get_default.
  by destruct (c !! "mobile").
Qed.

(** The displayed time: [paid_at] when it was supplied, else the creation
    time. *)
Lemma display_paid_at (c : pydict) :
  display c !! "paid_at"
  = Some (match c !! "paid_at" with
          | Some (VDate t) => VDate t
          | _ => if Py.truthy (Py.get c "paid_at") then Py.get c "paid_at"
                 else Py.get c "created_at"
          end).
Proof.
  unfold display. simplify_map_eq. unfold Py.or, Py.get.
  by destruct (c !! "paid_at") as [[]|].
Qed.

End LandingFacts.

(** C5 (the code departs from the claim). A contribution recorded through
    [add_contribution] without name and without mobile is stored with both
    keys present and holding [None]; on the landing page of its project the
    entry's name is then [None], not ["Guest"], because the ["Guest"] default
    of [c.get("mobile", "Guest")] applies only to a missing key.  The time
    shown falls back to the creation time as claimed. *)
Theorem public_project_guest_name_is_null (float_of_str : string → option float) :
  ∃ (r : PublicProject) (entry : pydict),
    public_project float_of_str "roof" landing_db = Return r
    ∧ pp_recent_contributions r = [entry]
    ∧ entry !! "name" = Some VNull
    ∧ entry !! "name" ≠ Some (VStr "Guest")
    ∧ entry !! "paid_at" = Some (VDate 1700000500).
Proof.
  eexists. eexists. split; [vm_compute; reflexivity|].
  split; [reflexivity|]. split; [reflexivity|]. split; [|reflexivity].
  intros H. vm_compute in H. discriminate.
Qed.

Lemma public_project_only_public_witness :
  public_project (fun _ => None) "hall" landing_db
  = Raise (HTTPException 404 "Project not found")
  ∧ public_project (fun _ => None) "hall" landing_db
    = public_project (fun _ => None) "hall" ∅.
Proof.
  destruct (public_project_only_public (fun _ => None) "hall" landing_db)
    as (_ & H404 & Hsame).
  split.
  - apply H404. intros p Hp [Hs Hpub].
    vm_compute in Hp. apply list_elem_of_In in Hp.
    destruct Hp as [<-|[<-|[]]]; vm_compute in Hs, Hpub; discriminate.
  - apply Hsame.
    + intros p Hp Hs. vm_compute in Hp. apply list_elem_of_In in Hp.
      destruct Hp as [<-|[<-|[]]]; vm_compute in Hs |- *; [discriminate | reflexivity].
    + intros p Hp. vm_compute in Hp. apply list_elem_of_In in Hp. destruct Hp.
Defined.

(** ** Re-joining a project *)

Section JoinFacts.

Lemma matches_pair (P U : string) (d : document) :
  matches (pair_query P U) d = str_field "project_id" P d && str_field "user_id" U d.
Proof.
  unfold pair_query. rewrite !matches_cons_str, matches_nil by done.
  by rewrite andb_true_r.
Qed.

Lemma find_pair (P U : string) (db : gmap string (list document)) :
  find (pair_query P U) (collection db "participant") = participants_of P U db.
Proof. apply find_ext, matches_pair. Qed.

(** Updating the first match with fields that keep it a match replaces the
    head of the matching records and nothing else. *)
Lemma update_first_find (q : query) (upd : pydict) (c : list document) :
  (∀ d, matches q d = true → matches q (Doc (doc_id d) (upd ∪ doc_fields d)) = true) →
  match find q c with
  | [] => update_first q (SetFields upd) c = None
  | d :: rest =>
      ∃ c', update_first q (SetFields upd) c = Some (Some c')
            ∧ find q c' = Doc (doc_id d) (upd ∪ doc_fields d) :: rest
  end.
Proof.
  intros Hkeep. induction c as [|x c IH]; [done|].
  unfold find in *. simpl. destruct (matches q x) eqn:E.
  - eexists. split; [reflexivity|]. simpl. by rewrite Hkeep.
  - destruct (List.filter (matches q) c) as [|d rest].
    + by rewrite IH.
    + destruct IH as (c' & -> & Hc'). eexists. split; [reflexivity|].
      simpl. by rewrite E.
Qed.

Lemma dump_join_lookup (b : JoinProject) (f : gmap string value) :
  (model_dump b ∪ f) !! "project_id" = Some (VStr (jp_project_id b))
  ∧ (model_dump b ∪ f) !! "user_id" = Some (VStr (jp_user_id b))
  ∧ (model_dump b ∪ f) !! "pledge_amount" = Some (dump_opt VNum (jp_pledge_amount b))
  ∧ (model_dump b ∪ f) !! "frequency" = Some (dump_opt VStr (jp_frequency b))
  ∧ (model_dump b ∪ f) !! "preferred_mode" = Some (dump_opt VStr (jp_preferred_mode b)).
Proof.
  repeat split; apply lookup_union_Some_l;
    unfold model_dump, JoinProject_model; by simplify_map_eq.
Qed.

Lemma join_keeps_match (b : JoinProject) (i : object_id) (f : gmap string value) :
  matches (pair_query (jp_project_id b) (jp_user_id b)) (Doc i (model_dump b ∪ f)) = true.
Proof.
  rewrite matches_pair. unfold str_field; simpl.
  destruct (dump_join_lookup b f) as (-> & -> & _).
  by rewrite !String.eqb_refl.
Qed.

(** The records of the pair after a join: the first one carries the payload,
    or a new one does when there was none. *)
Lemma join_project_participants (e : env) (b : JoinProject)
    (db : gmap string (list document)) :
  participants_of (jp_project_id b) (jp_user_id b) (join_project e b db).2
  = match participants_of (jp_project_id b) (jp_user_id b) db with
    | [] => [Doc (new_id e)
                 (model_dump b ∪ query_fields (pair_query (jp_project_id b) (jp_user_id b)))]
    | d :: rest => Doc (doc_id d) (model_dump b ∪ doc_fields d) :: rest
    end.
Proof.
  rewrite <- !find_pair. unfold join_project, update_one.
  fold (pair_query (jp_project_id b) (jp_user_id b)).
  pose proof (update_first_find (pair_query (jp_project_id b) (jp_user_id b))
                (model_dump b) (collection db "participant")
                (fun d _ => join_keeps_match b (doc_id d) (doc_fields d))) as H.
  destruct (find _ (collection db "participant")) as [|d rest] eqn:E.
  - rewrite H. cbn [fst snd apply_update]. rewrite collection_insert_one, find_app, E.
    unfold find. cbn [List.filter app]. by rewrite join_keeps_match.
  - destruct H as (c' & -> & Hc'). simpl.
    unfold collection at 1. by rewrite lookup_insert_eq.
Qed.

(** C7. For two join requests of the same pair [(project_id, user_id)],
    starting from a store that holds at most one participant record for the
    pair: both succeed, exactly one record of the pair exists afterwards, and
    its [pledge_amount], [frequency] and [preferred_mode] are those of the
    second request (a field the second request leaves out is [None], not the
    first request's value). *)
Theorem join_project_twice_overwrites (e1 e2 : env) (b1 b2 : JoinProject)
    (db : gmap string (list document)) :
  jp_project_id b1 = jp_project_id b2 →
  jp_user_id b1 = jp_user_id b2 →
  (length (participants_of (jp_project_id b2) (jp_user_id b2) db) ≤ 1)%nat →
  let r1 := join_project e1 b1 db in
  let r2 := join_project e2 b2 r1.2 in
  r1.1 = Return true ∧ r2.1 = Return true
  ∧ ∃ d : document,
      participants_of (jp_project_id b2) (jp_user_id b2) r2.2 = [d]
      ∧ doc_fields d !! "pledge_amount" = Some (dump_opt VNum (jp_pledge_amount b2))
      ∧ doc_fields d !! "frequency" = Some (dump_opt VStr (jp_frequency b2))
      ∧ doc_fields d !! "preferred_mode" = Some (dump_opt VStr (jp_preferred_mode b2)).
Proof.
  intros HP HU Hlen r1 r2. split; [apply join_project_ok|]. split; [apply join_project_ok|].
  unfold r2, r1. rewrite join_project_participants.
  rewrite <- HP, <- HU in Hlen |- *. rewrite join_project_participants.
  rewrite HP, HU in Hlen |- *.
  destruct (participants_of _ _ db) as [|d [|d' rest]]; simpl in Hlen; [| |lia].
  - eexists. split; [reflexivity|]. simpl.
    by destruct (dump_join_lookup b2
      (model_dump b1 ∪ query_fields (pair_query (jp_project_id b2) (jp_user_id b2))))
      as (_ & _ & ? & ? & ?).
  - eexists. split; [reflexivity|]. simpl.
    by destruct (dump_join_lookup b2 (model_dump b1 ∪ doc_fields d))
      as (_ & _ & ? & ? & ?).
Qed.

End JoinFacts.

Lemma join_project_twice_overwrites_witness :
  ∃ d : document,
    participants_of "65f0a1b2c3d4e5f601234501" "65f0a1b2c3d4e5f6012345bb"
      (join_project env_hall second_join (join_project env_roof first_join ∅).2).2 = [d]
    ∧ doc_fields d !! "pledge_amount" = Some (VNum 200%float)
    ∧ doc_fields d !! "frequency" = Some (VStr "weekly")
    ∧ doc_fields d !! "preferred_mode" = Some VNull.
Proof.
  destruct (join_project_twice_overwrites env_roof env_hall first_join second_join ∅)
    as (_ & _ & d & Hd & Hp & Hf & Hm); [reflexivity | reflexivity | vm_compute; lia |].
  exists d. repeat split; assumption.
Defined.

(** ** Identifier parsing *)

Lemma hex_not_space (c : ascii) : Bson.is_hex c = true → Bson.is_space c = false.
Proof. destruct c as [[] [] [] [] [] [] [] []]; vm_compute; congruence. Qed.

Lemma fromhex_all_hex (n : nat) (s : string) :
  String.length s = (2 * n)%nat → Bson.all_hex s = true →
  Bson.fromhex s = Some (Bson.lowercase s).
Proof.
  revert s. induction n as [|n IH]; intros s Hlen Hhex.
  - by destruct s.
  - destruct s as [|c [|c' s]]; simpl in Hlen; try lia.
    simpl in Hhex. apply andb_true_iff in Hhex as [Hc Hhex].
    apply andb_true_iff in Hhex as [Hc' Hhex].
    cbn [Bson.fromhex Bson.lowercase]. rewrite (hex_not_space c Hc), Hc, Hc'.
    rewrite IH; [done | lia | done].
Qed.

(** The identifiers in the store's own format, 24 hexadecimal digits, are
    accepted, and upper-case digits are read as lower-case ones. *)
Lemma ObjectId_of_hex (s : string) :
  String.length s = 24%nat → Bson.all_hex s = true →
  Bson.ObjectId s = Some (Oid (Bson.lowercase s)).
Proof.
  intros Hlen Hhex. unfold Bson.ObjectId. rewrite Hlen. simpl.
  by rewrite (fromhex_all_hex 12).
Qed.

(** What [ObjectId] rejects: a string that is not 24 characters long, or whose
    characters are not pairs of hexadecimal digits with whitespace between
    pairs at most. *)
Lemma ObjectId_rejects (s : string) :
  Bson.ObjectId s = None ↔ String.length s ≠ 24%nat ∨ Bson.fromhex s = None.
Proof.
  unfold Bson.ObjectId. destruct (String.length s =? 24)%nat eqn:E.
  - apply Nat.eqb_eq in E. destruct (Bson.fromhex s); simpl; split; try done.
    + intros [?|?]; done.
    + by right.
  - apply Nat.eqb_neq in E. split; [by left | done].
Qed.

(** A 24-character string with whitespace between its digit pairs is accepted
    too, and names a shorter identifier. *)
Lemma ObjectId_skips_whitespace :
  Bson.ObjectId "65f0a1b2c3d4e5f60123  67" = Some (Oid "65f0a1b2c3d4e5f6012367").
Proof. reflexivity. Qed.

(** ** Changing the OTP *)

Section OtpFacts.



End OtpFacts.


(** ** Login of an unknown mobile *)

Section LoginFacts.

Lemma User_new_default_otp (mobile : string) :
  User_new {[ "mobile" := VStr mobile; "otp" := VStr mobile ]}
  = Return (mkUser mobile None (Some mobile) ∅ false).
Proof. unfold User_new. by run_model. Qed.

Lemma provisioned_user_otp (e : env) (mobile : string) :
  doc_fields (provisioned_user e mobile) !! "otp" = Some (VStr mobile)
  ∧ doc_fields (provisioned_user e mobile) !! "mobile" = Some (VStr mobile).
Proof.
  unfold provisioned_user, model_dump, User_model; simpl. by simplify_map_eq.
Qed.

Lemma check_otp_provisioned (e : env) (req : LoginRequest) :
  login_otp req ≠ login_mobile req →
  check_otp req (provisioned_user e (login_mobile req))
  = Raise (HTTPException 401 "Invalid OTP").
Proof.
  intros Hne. unfold check_otp, Py.get.
  rewrite !as_dict_field by done.
  destruct (provisioned_user_otp e (login_mobile req)) as [-> ->]. simpl.
  assert (Hor : Py.or (VStr (login_mobile req)) (VStr (login_mobile req))
                = VStr (login_mobile req)).
  { unfold Py.or. by destruct (Py.truthy _). }
  rewrite Hor. simpl. apply String.eqb_neq in Hne. by rewrite Hne.
Qed.

(** C9. A login whose mobile matches no stored user and whose OTP differs
    from that mobile first stores a new user whose [otp] is the mobile, and
    then fails with 401 "Invalid OTP": the store has one user more although the
    request failed.  The identifier the driver generates is taken to be
    well-formed and not yet used in the collection. *)
Theorem login_unknown_mobile_persists_user (e : env) (req : LoginRequest)
    (db : gmap string (list document)) :
  (∀ u, u ∈ collection db "user" →
        doc_fields u !! "mobile" ≠ Some (VStr (login_mobile req))) →
  login_otp req ≠ login_mobile req →
  Bson.ObjectId (Bson.str (new_id e)) = Some (new_id e) →
  (∀ u, u ∈ collection db "user" → doc_id u ≠ new_id e) →
  let u := provisioned_user e (login_mobile req) in
  login e req db = (Raise (HTTPException 401 "Invalid OTP"), insert_one "user" u db)
  ∧ doc_fields u !! "otp" = Some (VStr (login_mobile req))
  ∧ collection (insert_one "user" u db) "user" = (collection db "user" ++ [u])%list.
Proof.
  intros Hmobile Hotp Hwf Hfresh u.
  split; [|split; [apply provisioned_user_otp | apply collection_insert_one]].
  unfold login. rewrite find_one_None.
  2:{ intros d Hd. rewrite matches_cons_str by done.
      destruct (str_field "mobile" (login_mobile req) d) eqn:E; [|done].
      apply str_field_true in E. by destruct (Hmobile d Hd). }
  rewrite User_new_default_otp. unfold create_document.
  fold (provisioned_user e (login_mobile req)). fold u. rewrite Hwf.
  rewrite collection_insert_one. unfold find_one. rewrite find_app.
  rewrite (find_nil_forall _ (collection db "user")).
  2:{ intros d Hd. apply matches_id_false. by apply Hfresh. }
  unfold find. cbn [List.filter app].
  assert (Hm : matches [("_id", VOid (new_id e))] u = true) by by apply matches_id.
  rewrite Hm. cbn [head]. unfold u. by rewrite check_otp_provisioned.
Qed.

End LoginFacts.

Lemma login_unknown_mobile_persists_user_witness :
  login env_user (mkLoginRequest "5550100" "0000") ∅
  = (Raise (HTTPException 401 "Invalid OTP"),
     insert_one "user" (provisioned_user env_user "5550100") ∅)
  ∧ length (collection (login env_user (mkLoginRequest "5550100" "0000") ∅).2 "user") = 1%nat.
Proof.
  destruct (login_unknown_mobile_persists_user env_user (mkLoginRequest "5550100" "0000") ∅)
    as (H & _ & _).
  - intros u Hu. vm_compute in Hu. apply list_elem_of_In in Hu. destruct Hu.
  - simpl. discriminate.
  - reflexivity.
  - intros u Hu. vm_compute in Hu. apply list_elem_of_In in Hu. destruct Hu.
  - split; [exact H|]. rewrite H. reflexivity.
Defined.

(** ** Creating a masjid *)

Section MasjidFacts.

Lemma Masjid_new_of_body (body : CreateMasjid) :
  Masjid_new {[ "name" := VStr (cm_name body);
                "address" := dump_opt VStr (cm_address body);
                "created_by_user_id" := VStr (cm_owner_user_id body);
                "support_whatsapp" := dump_opt VStr (cm_support_whatsapp body) ]}
  = Return (mkMasjid (cm_name body) (cm_address body)
                     (Some (cm_owner_user_id body)) (cm_support_whatsapp body)).
Proof.
  unfold Masjid_new. by run_model.
Qed.


End MasjidFacts.


(** ** Stores the service can reach *)

Section ReachableFacts.

Lemma update_one_other (name : string) (q : query) (u : update) (upsert : bool)
    (i : object_id) (db db' : gmap string (list document)) (n : nat) (name' : string) :
  update_one name q u upsert i db = Return (n, db') →
  name' ≠ name → collection db' name' = collection db name'.
Proof.
  unfold update_one. intros H Hne.
  destruct (update_first q u (collection db name)) as [[c'|]|].
  - injection H as _ <-. unfold collection at 1. by rewrite lookup_insert_ne.
  - done.
  - destruct upsert; [|by injection H as _ <-].
    destruct (apply_update u (query_fields q)); [|done].
    injection H as _ <-. by apply collection_insert_one_ne.
Qed.

Lemma login_other (e : env) (req : LoginRequest) (db : gmap string (list document))
    (name : string) :
  name ≠ "user" → collection (login e req db).2 name = collection db name.
Proof.
  intros Hne. unfold login.
  destruct (find_one _ _); [done|]. rewrite User_new_default_otp. simpl.
  destruct (Bson.ObjectId _); [destruct (find_one _ _)|];
    simpl; by apply collection_insert_one_ne.
Qed.

Lemma update_otp_other (e : env) (user_id : string) (body : UpdateOtpRequest)
    (db : gmap string (list document)) (name : string) :
  name ≠ "user" → collection (update_otp e user_id body db).2 name = collection db name.
Proof.
  intros Hne. unfold update_otp. destruct (oid user_id); [|done].
  destruct (update_one _ _ _ _ _ _) as [[n db']|] eqn:E; [|done].
  apply update_one_other with (name' := name) in E; [|done].
  by destruct (n =? 0)%nat.
Qed.

Lemma create_masjid_other (e : env) (body : CreateMasjid)
    (db : gmap string (list document)) (name : string) :
  name ≠ "user" → name ≠ "masjid" →
  collection (create_masjid e body db).2 name = collection db name.
Proof.
  intros Hu Hm. unfold create_masjid. rewrite Masjid_new_of_body. simpl.
  destruct (oid _); simpl; [|by apply collection_insert_one_ne].
  destruct (update_one _ _ _ _ _ _) as [[n db']|] eqn:E; simpl.
  - apply update_one_other with (name' := name) in E; [|done].
    rewrite E. by apply collection_insert_one_ne.
  - by apply collection_insert_one_ne.
Qed.

Lemma create_project_other (e : env) (body : CreateProject)
    (db : gmap string (list document)) (name : string) :
  name ≠ "project" → collection (create_project e body db).2 name = collection db name.
Proof.
  intros Hne. unfold create_project. destruct (Project_new _); [|done].
  simpl. by apply collection_insert_one_ne.
Qed.

Lemma join_project_other (e : env) (body : JoinProject)
    (db : gmap string (list document)) (name : string) :
  name ≠ "participant" → collection (join_project e body db).2 name = collection db name.
Proof.
  intros Hne. unfold join_project.
  destruct (update_one _ _ _ _ _ _) as [[n db']|] eqn:E; [|done].
  by apply update_one_other with (name' := name) in E.
Qed.

Lemma add_contribution_other (e : env) (body : AddContribution)
    (db : gmap string (list document)) (name : string) :
  name ≠ "contribution" →
  collection (add_contribution e body db).2 name = collection db name.
Proof.
  intros Hne. unfold add_contribution. destruct (Contribution_new _); [|done].
  simpl. by apply collection_insert_one_ne.
Qed.

Lemma add_expense_other (e : env) (body : AddExpense)
    (db : gmap string (list document)) (name : string) :
  name ≠ "expense" → collection (add_expense e body db).2 name = collection db name.
Proof.
  intros Hne. unfold add_expense. destruct (Expense_new _); [|done].
  simpl. by apply collection_insert_one_ne.
Qed.

(** A request other than the two that record money leaves the contribution
    and expense collections alone; those two append a validated record. *)
Lemma add_contribution_numeric (e : env) (body : AddContribution)
    (db : gmap string (list document)) :
  Forall numeric_amount (collection db "contribution") →
  Forall numeric_amount (collection (add_contribution e body db).2 "contribution").
Proof.
  intros H. unfold add_contribution. destruct (Contribution_new _) as [c|]; [|done].
  simpl. rewrite collection_insert_one. apply Forall_app. split; [done|].
  constructor; [|constructor]. unfold numeric_amount, model_dump, Contribution_model.
  simpl. by simplify_map_eq.
Qed.

Lemma add_expense_numeric (e : env) (body : AddExpense)
    (db : gmap string (list document)) :
  Forall numeric_amount (collection db "expense") →
  Forall numeric_amount (collection (add_expense e body db).2 "expense").
Proof.
  intros H. unfold add_expense. destruct (Expense_new _) as [x|]; [|done].
  simpl. rewrite collection_insert_one. apply Forall_app. split; [done|].
  constructor; [|constructor]. unfold numeric_amount, model_dump, Expense_model.
  simpl. by simplify_map_eq.
Qed.

Lemma serve_numeric (e : env) (r : request) (db : gmap string (list document)) :
  numeric_store db → numeric_store (serve e r db).
Proof.
  intros [Hc He]. unfold numeric_store.
  destruct r; simpl;
    rewrite ?login_other, ?update_otp_other, ?create_masjid_other,
            ?create_project_other, ?join_project_other by done; try done.
  - rewrite (add_contribution_other _ _ _ "expense") by done.
    split; [by apply add_contribution_numeric | done].
  - rewrite (add_expense_other _ _ _ "contribution") by done.
    split; [done | by apply add_expense_numeric].
Qed.

(** Every reachable store has numeric amounts. *)
Lemma reachable_numeric (db : gmap string (list document)) :
  reachable db → numeric_store db.
Proof.
  induction 1 as [|e r db _ IH]; [|by apply serve_numeric].
  split; unfold collection; rewrite lookup_empty; constructor.
Qed.

End ReachableFacts.

Section UniqueParticipants.

Lemma update_first_other_filter (q : query) (upd : pydict) (p' : document → bool)
    (c c' : list document) :
  (∀ d, matches q d = true →
        p' d = false ∧ p' (Doc (doc_id d) (upd ∪ doc_fields d)) = false) →
  update_first q (SetFields upd) c = Some (Some c') →
  List.filter p' c' = List.filter p' c.
Proof.
  intros Hq. revert c'. induction c as [|x c IH]; intros c'; simpl; [done|].
  destruct (matches q x) eqn:E.
  - intros [= <-]. destruct (Hq x E) as [Hx Hx']. simpl. by rewrite Hx, Hx'.
  - destruct (update_first q (SetFields upd) c) as [[c''|]|]; simpl; try done.
    intros [= <-]. simpl. by rewrite (IH c'' eq_refl).
Qed.

Lemma other_pair_no_match (P U P' U' : string) (f : gmap string value) :
  ¬ (P' = P ∧ U' = U) →
  f !! "project_id" = Some (VStr P) → f !! "user_id" = Some (VStr U) →
  ∀ i, str_field "project_id" P' (Doc i f) && str_field "user_id" U' (Doc i f) = false.
Proof.
  intros Hne HP HU i. apply andb_false_iff.
  destruct (decide (P' = P)) as [->|HneP].
  - right. destruct (str_field "user_id" U' (Doc i f)) eqn:E; [|done].
    apply str_field_true in E. simpl in E. rewrite HU in E. injection E as ->.
    by destruct Hne.
  - left. destruct (str_field "project_id" P' (Doc i f)) eqn:E; [|done].
    apply str_field_true in E. simpl in E. rewrite HP in E. by injection E as ->.
Qed.

(** A join of one pair leaves the records of every other pair as they were. *)
Lemma join_project_other_pair (e : env) (b : JoinProject)
    (db : gmap string (list document)) (P' U' : string) :
  ¬ (P' = jp_project_id b ∧ U' = jp_user_id b) →
  participants_of P' U' (join_project e b db).2 = participants_of P' U' db.
Proof.
  intros Hne. unfold participants_of, join_project, update_one.
  destruct (update_first _ _ _) as [[c'|]|] eqn:E; simpl.
  - unfold collection at 1. rewrite lookup_insert_eq. simpl.
    eapply update_first_other_filter; [|exact E].
    intros d Hd. fold (pair_query (jp_project_id b) (jp_user_id b)) in Hd.
    rewrite matches_pair in Hd. apply andb_true_iff in Hd as [HP HU].
    apply str_field_true in HP, HU. destruct d as [i f]. simpl in *. split.
    + by apply other_pair_no_match with (P := jp_project_id b) (U := jp_user_id b).
    + destruct (dump_join_lookup b f) as (? & ? & _).
      by apply other_pair_no_match with (P := jp_project_id b) (U := jp_user_id b).
  - reflexivity.
  - rewrite collection_insert_one, filter_app. simpl.
    destruct (dump_join_lookup b
                (query_fields [("project_id", VStr (jp_project_id b));
                               ("user_id", VStr (jp_user_id b))])) as (? & ? & _).
    rewrite other_pair_no_match
      with (P := jp_project_id b) (U := jp_user_id b) by done.
    by rewrite app_nil_r.
Qed.

Lemma join_project_unique (e : env) (b : JoinProject) (db : gmap string (list document)) :
  unique_participants db → unique_participants (join_project e b db).2.
Proof.
  intros H P' U'.
  destruct (decide (P' = jp_project_id b ∧ U' = jp_user_id b)) as [[-> ->]|Hne].
  - rewrite join_project_participants. specialize (H (jp_project_id b) (jp_user_id b)).
    destruct (participants_of _ _ db) as [|d [|d' rest]]; simpl in *; lia.
  - rewrite join_project_other_pair by done. apply H.
Qed.

Lemma serve_unique (e : env) (r : request) (db : gmap string (list document)) :
  unique_participants db → unique_participants (serve e r db).
Proof.
  intros H. destruct r; simpl; try (by apply join_project_unique);
    intros P U; unfold participants_of;
    rewrite ?login_other, ?update_otp_other, ?create_masjid_other,
            ?create_project_other, ?add_contribution_other, ?add_expense_other by done;
    apply H.
Qed.

(** Every reachable store holds at most one participant record per pair. *)
Lemma reachable_unique_participants (db : gmap string (list document)) :
  reachable db → unique_participants db.
Proof.
  induction 1 as [|e r db _ IH]; [|by apply serve_unique].
  intros P U. unfold participants_of, collection. rewrite lookup_empty. simpl. lia.
Qed.

End UniqueParticipants.

(** The landing-page store is what three requests leave behind: two projects
    created and one guest contribution added. *)
Lemma landing_db_served :
  landing_db
  = serve env_gift (PostContribution guest_gift)
      (serve env_hall (PostProject private_hall)
         (serve env_roof (PostProject public_roof) ∅)).
Proof. vm_compute. reflexivity. Qed.

Lemma landing_db_reachable : reachable landing_db.
Proof. rewrite landing_db_served. repeat constructor. Qed.

(** * Further properties of the handlers *)

(** ** Sorting by creation time *)

Section SortFacts.

Variable key : string.

Lemma insert_desc_perm (d : document) (l : list document) :
  insert_desc key d l ≡ₚ d :: l.
Proof.
  induction l as [|x l IH]; simpl; [done|].
  destruct (key_ge _ _); [done|]. rewrite IH. apply Permutation_swap.
Qed.

(** Sorting keeps every record, once each. *)
Lemma sort_desc_perm (c : list document) : sort_desc key c ≡ₚ c.
Proof.
  induction c as [|x c IH]; simpl; [done|].
  unfold sort_desc in *. simpl. by rewrite insert_desc_perm, IH.
Qed.

Lemma key_ge_total (a b : option Z) : key_ge a b = false → key_ge b a = true.
Proof. destruct a, b; simpl; try done. intros H. apply Z.leb_le. apply Z.leb_gt in H. lia. Qed.

Lemma key_ge_trans (a b c : option Z) :
  key_ge a b = true → key_ge b c = true → key_ge a c = true.
Proof.
  destruct a, b, c; simpl; try done. rewrite !Z.leb_le. lia.
Qed.

Lemma insert_desc_sorted (d : document) (l : list document) :
  StronglySorted (fun a b => key_ge (sort_key key a) (sort_key key b) = true) l →
  StronglySorted (fun a b => key_ge (sort_key key a) (sort_key key b) = true)
                 (insert_desc key d l).
Proof.
  induction 1 as [|x l Hl IH Hx]; simpl; [repeat constructor|].
  destruct (key_ge (sort_key key d) (sort_key key x)) eqn:E.
  - constructor; [by constructor|]. constructor; [done|].
    eapply Forall_impl; [|exact Hx]. intros y Hy. simpl in Hy.
    by eapply key_ge_trans.
  - constructor; [done|]. rewrite insert_desc_perm. constructor; [|done].
    by apply key_ge_total.
Qed.

Lemma sort_desc_sorted (c : list document) :
  StronglySorted (fun a b => key_ge (sort_key key a) (sort_key key b) = true)
                 (sort_desc key c).
Proof.
  induction c as [|x c IH]; [constructor|]. by apply insert_desc_sorted.
Qed.

End SortFacts.

(** ** Items of a response *)

Lemma with_public_id_field (d : document) (k : string) :
  k ≠ "id" → k ≠ "_id" → with_public_id d !! k = doc_fields d !! k.
Proof.
  intros Hid Hk. unfold with_public_id, as_dict.
  by rewrite lookup_insert_ne, lookup_delete_ne, lookup_insert_ne.
Qed.

Lemma with_public_id_has_id (d : document) : has_public_id (with_public_id d).
Proof.
  unfold has_public_id, with_public_id. split.
  - by rewrite lookup_insert_ne, lookup_delete_eq.
  - eexists. by rewrite lookup_insert_eq.
Qed.

Lemma item_amount_public (d : document) : item_amount (with_public_id d) = amount_of d.
Proof. unfold item_amount, amount_of. by rewrite with_public_id_field. Qed.

(** ** Listings *)

Lemma find_all (c : list document) : find [] c = c.
Proof. unfold find. induction c as [|x c IH]; simpl; [done|]. by rewrite IH. Qed.

Lemma find_masjid_projects (masjid_id : string) (db : gmap string (list document)) :
  find [("masjid_id", VStr masjid_id)] (collection db "project")
  = projects_of masjid_id db.
Proof.
  apply find_ext. intros d.
  rewrite matches_cons_str, matches_nil by done. by rewrite andb_true_r.
Qed.

Lemma Forall_public_ids (l : list document) :
  Forall has_public_id (with_public_id <$> l).
Proof. apply Forall_fmap, Forall_forall. intros d _. apply with_public_id_has_id. Qed.

(** X1. [list_masjids] returns every stored masjid exactly once, newest
    first, and [list_projects] returns exactly the projects whose [masjid_id]
    is the given one, newest first; every item carries [id] and not [_id]. *)
Theorem listings_complete_newest_first (masjid_id : string)
    (db : gmap string (list document)) :
  (∃ l, list_masjids db = with_public_id <$> l
        ∧ l ≡ₚ collection db "masjid" ∧ newest_first l)
  ∧ (∃ l, list_projects masjid_id db = with_public_id <$> l
          ∧ l ≡ₚ projects_of masjid_id db ∧ newest_first l)
  ∧ Forall has_public_id (list_masjids db)
  ∧ Forall has_public_id (list_projects masjid_id db).
Proof.
  split; [|split; [|split; apply Forall_public_ids]].
  - eexists. split; [reflexivity|]. rewrite find_all.
    split; [apply sort_desc_perm | apply sort_desc_sorted].
  - eexists. split; [reflexivity|]. rewrite find_masjid_projects.
    split; [apply sort_desc_perm | apply sort_desc_sorted].
Qed.

Section TotalsFacts.

Variable float_of_str : string → option float.

Lemma py_float_item_amount (d : document) :
  numeric_amount d →
  py_float float_of_str (Py.get_default (with_public_id d) "amount" (VNum 0%float))
  = Return (amount_of d).
Proof.
  unfold numeric_amount, amount_of, Py.get_default.
  rewrite with_public_id_field by done.
  destruct (doc_fields d !! "amount") as [[]|]; simpl; done.
Qed.

(** The listing loop appends the items in cursor order and adds their amounts
    left to right. *)
Lemma list_loop_foldl (total : float) (items : list pydict) (cursor : list document) :
  Forall numeric_amount cursor →
  list_loop float_of_str total items cursor
  = Return ((items ++ (with_public_id <$> cursor))%list,
            foldl PrimFloat.add total (amount_of <$> cursor)).
Proof.
  intros H. revert total items.
  induction H as [|d cursor Hd _ IH]; intros total items; simpl.
  - by rewrite app_nil_r.
  - rewrite py_float_item_amount by done. simpl. rewrite IH.
    by rewrite <- app_assoc.
Qed.

Lemma item_amounts_public (l : list document) :
  item_amount <$> (with_public_id <$> l) = amount_of <$> l.
Proof.
  rewrite <- list_fmap_compose. apply list_fmap_ext. intros i d _. simpl.
  apply item_amount_public.
Qed.

Lemma Forall_sort_desc (P : document → Prop) (key : string) (c : list document) :
  Forall P c → Forall P (sort_desc key c).
Proof. intros H. by rewrite sort_desc_perm. Qed.

(** X2. On a store with numeric amounts, [list_contributions] returns exactly
    the approved contributions of the project, newest first, and its [total]
    is the sum of the [amount] fields of the items in that same response. *)
Theorem list_contributions_total (project_id : string) (db : gmap string (list document)) :
  numeric_store db →
  ∃ (items : list pydict) (total : float),
    list_contributions float_of_str project_id db = Return (items, total)
    ∧ total = float_sum (item_amount <$> items)
    ∧ ∃ l, items = with_public_id <$> l
           ∧ l ≡ₚ approved_contributions project_id db ∧ newest_first l.
Proof.
  intros [Hc _]. unfold list_contributions.
  rewrite find_approved_contributions.
  rewrite list_loop_foldl by (by apply Forall_sort_desc, Forall_filter_bool).
  eexists. eexists. split; [reflexivity|]. split.
  - simpl. by rewrite item_amounts_public.
  - eexists. split; [reflexivity|].
    split; [apply sort_desc_perm | apply sort_desc_sorted].
Qed.

(** X3. On a store with numeric amounts, [list_expenses] returns every
    expense of the project (there is no approval gate), newest first, and its
    [total] is the sum of the [amount] fields of the items in that same
    response. *)
Theorem list_expenses_total (project_id : string) (db : gmap string (list document)) :
  numeric_store db →
  ∃ (items : list pydict) (total : float),
    list_expenses float_of_str project_id db = Return (items, total)
    ∧ total = float_sum (item_amount <$> items)
    ∧ ∃ l, items = with_public_id <$> l
           ∧ l ≡ₚ project_expenses project_id db ∧ newest_first l.
Proof.
  intros [_ He]. unfold list_expenses.
  rewrite find_project_expenses.
  rewrite list_loop_foldl by (by apply Forall_sort_desc, Forall_filter_bool).
  eexists. eexists. split; [reflexivity|]. split.
  - simpl. by rewrite item_amounts_public.
  - eexists. split; [reflexivity|].
    split; [apply sort_desc_perm | apply sort_desc_sorted].
Qed.

End TotalsFacts.

Lemma list_contributions_total_witness :
  numeric_store ledger_db
  ∧ ∃ (items : list pydict) (total : float),
      list_contributions (fun _ => None) "p1" ledger_db = Return (items, total)
      ∧ total = float_sum (item_amount <$> items).
Proof.
  assert (Hn : numeric_store ledger_db) by (split; repeat constructor).
  split; [exact Hn|].
  destruct (list_contributions_total (fun _ => None) "p1" ledger_db Hn)
    as (items & total & Hr & Ht & _).
  exists items, total. by split.
Defined.

Lemma list_expenses_total_witness :
  numeric_store ledger_db
  ∧ ∃ (items : list pydict) (total : float),
      list_expenses (fun _ => None) "p1" ledger_db = Return (items, total)
      ∧ total = float_sum (item_amount <$> items).
Proof.
  assert (Hn : numeric_store ledger_db) by (split; repeat constructor).
  split; [exact Hn|].
  destruct (list_expenses_total (fun _ => None) "p1" ledger_db Hn)
    as (items & total & Hr & Ht & _).
  exists items, total. by split.
Defined.

(** ** Joining and listing participants *)

Lemma find_project_participants (project_id : string) (d : document) :
  matches [("project_id", VStr project_id)] d = str_field "project_id" project_id d.
Proof. rewrite matches_cons_str, matches_nil by done. by rewrite andb_true_r. Qed.

(** X4. After any join request, the participant listing of the body's project
    shows an item of the body's user carrying the body's pledge, frequency and
    mode, with [id] in place of [_id]; and every item of a participant listing
    belongs to the project asked for. *)
Theorem join_then_list_participants (e : env) (b : JoinProject)
    (db : gmap string (list document)) :
  (∃ item : pydict,
      item ∈ list_participants (jp_project_id b) (join_project e b db).2
      ∧ item !! "user_id" = Some (VStr (jp_user_id b))
      ∧ item !! "pledge_amount" = Some (dump_opt VNum (jp_pledge_amount b))
      ∧ item !! "frequency" = Some (dump_opt VStr (jp_frequency b))
      ∧ item !! "preferred_mode" = Some (dump_opt VStr (jp_preferred_mode b))
      ∧ has_public_id item)
  ∧ ∀ pid, Forall (fun item : pydict => item !! "project_id" = Some (VStr pid))
                  (list_participants pid db).
Proof.
  split.
  - pose proof (join_project_participants e b db) as H.
    assert (∃ d f, d ∈ participants_of (jp_project_id b) (jp_user_id b)
                         (join_project e b db).2
                   ∧ doc_fields d = model_dump b ∪ f) as (d & f & Hd & Hf).
    { rewrite H. destruct (participants_of _ _ db) as [|d0 rest];
        eexists; eexists; (split; [by left | reflexivity]). }
    exists (with_public_id d).
    apply list_elem_of_In, filter_In in Hd as [Hin Hm].
    apply andb_true_iff in Hm as [HP _].
    destruct (dump_join_lookup b f) as (_ & HU & Hp & Hfr & Hm).
    split.
    { unfold list_participants. apply list_elem_of_fmap. exists d. split; [done|].
      apply list_elem_of_In, filter_In. split; [done|].
      by rewrite find_project_participants. }
    rewrite !with_public_id_field, Hf by done.
    split_and!; try done. apply with_public_id_has_id.
  - intros pid. unfold list_participants. apply Forall_fmap, Forall_forall.
    intros d Hd. unfold find in Hd. apply filter_In in Hd as [_ Hm].
    rewrite find_project_participants in Hm. apply str_field_true in Hm.
    simpl. by rewrite with_public_id_field.
Qed.

Lemma update_first_app_no_match (q : query) (u : update) (c l : list document) :
  find q c = [] →
  update_first q u (c ++ l)%list
  = option_map (option_map (app c)) (update_first q u l).
Proof.
  induction c as [|x c IH]; simpl.
  - intros _. by destruct (update_first q u l) as [[?|]|].
  - unfold find in *. simpl. destruct (matches q x) eqn:E; [done|].
    intros H. rewrite (IH H). by destruct (update_first q u l) as [[?|]|].
Qed.

(** Setting the same fields on the result of an update changes nothing. *)
Lemma update_first_again (q : query) (upd : pydict) (c c' : list document) :
  (∀ d, matches q d = true → matches q (Doc (doc_id d) (upd ∪ doc_fields d)) = true) →
  update_first q (SetFields upd) c = Some (Some c') →
  update_first q (SetFields upd) c' = Some (Some c').
Proof.
  intros Hkeep. revert c'. induction c as [|x c IH]; intros c'; simpl; [done|].
  destruct (matches q x) eqn:E.
  - intros [= <-]. simpl. rewrite (Hkeep x E). simpl.
    by rewrite (assoc_L (∪)), (idemp_L (∪)).
  - destruct (update_first q (SetFields upd) c) as [[c''|]|]; simpl; try done.
    intros [= <-]. simpl. rewrite E. by rewrite (IH c'' eq_refl).
Qed.

Lemma collection_insert (name : string) (c : list document)
    (db : gmap string (list document)) :
  collection (<[name := c]> db) name = c.
Proof. unfold collection. by rewrite lookup_insert_eq. Qed.

(** The store a join leaves behind. *)
Lemma join_project_store (e : env) (b : JoinProject) (db : gmap string (list document)) :
  (join_project e b db).2
  = match update_first (pair_query (jp_project_id b) (jp_user_id b))
            (SetFields (model_dump b)) (collection db "participant") with
    | Some (Some c') => <["participant" := c']> db
    | Some None => db
    | None =>
        insert_one "participant"
          (Doc (new_id e)
               (model_dump b ∪ query_fields (pair_query (jp_project_id b) (jp_user_id b))))
          db
    end.
Proof.
  unfold join_project, update_one.
  fold (pair_query (jp_project_id b) (jp_user_id b)).
  by destruct (update_first _ _ _) as [[c'|]|].
Qed.

(** X5. Repeating a join request is a no-op: a second join with the same
    body succeeds and leaves the store exactly as the first join left it, so
    no second record is created. *)
Theorem join_project_idempotent (e1 e2 : env) (b : JoinProject)
    (db : gmap string (list document)) :
  join_project e2 b (join_project e1 b db).2 = (Return true, (join_project e1 b db).2).
Proof.
  apply injective_projections; cbn [fst snd]; [apply join_project_ok|].
  rewrite (join_project_store e2), (join_project_store e1).
  pose proof (fun d (_ : matches (pair_query (jp_project_id b) (jp_user_id b)) d = true)
              => join_keeps_match b (doc_id d) (doc_fields d)) as Hkeep.
  destruct (update_first _ _ (collection db "participant")) as [[c'|]|] eqn:E.
  - rewrite collection_insert.
    rewrite (update_first_again _ _ _ _ Hkeep E). by rewrite insert_insert_eq.
  - by apply update_first_set_fields in E.
  - rewrite collection_insert_one.
    pose proof (update_first_find _ (model_dump b) (collection db "participant") Hkeep)
      as Hnone.
    destruct (find _ (collection db "participant")) as [|d0 rest] eqn:Ef.
    2:{ destruct Hnone as (? & Hx & _). congruence. }
    rewrite update_first_app_no_match by done. cbn [update_first].
    rewrite join_keeps_match. cbn [apply_update doc_fields doc_id option_map].
    rewrite (assoc_L (∪)), (idemp_L (∪)).
    unfold insert_one. by rewrite insert_insert_eq.
Qed.

(** ** Login *)

Lemma matches_mobile (m : string) (d : document) :
  matches [("mobile", VStr m)] d = str_field "mobile" m d.
Proof. rewrite matches_cons_str, matches_nil by done. by rewrite andb_true_r. Qed.

(** With a non-empty stored OTP, only that OTP is accepted. *)
Lemma check_otp_stored (req : LoginRequest) (u : document) (s : string) :
  doc_fields u !! "otp" = Some (VStr s) → s ≠ "" →
  check_otp req u
  = if String.eqb (login_otp req) s then Return (with_public_id u)
    else Raise (HTTPException 401 "Invalid OTP").
Proof.
  intros Hotp Hs. unfold check_otp, Py.get. rewrite !as_dict_field by done.
  rewrite Hotp. simpl. unfold Py.or. simpl.
  apply String.eqb_neq in Hs. rewrite Hs. simpl.
  by destruct (String.eqb (login_otp req) s).
Qed.

(** Without a stored OTP, or with an empty one, the mobile is the OTP. *)
Lemma check_otp_fallback (req : LoginRequest) (u : document) (m : string) :
  doc_fields u !! "otp" = None ∨ doc_fields u !! "otp" = Some VNull
  ∨ doc_fields u !! "otp" = Some (VStr "") →
  doc_fields u !! "mobile" = Some (VStr m) →
  check_otp req u
  = if String.eqb (login_otp req) m then Return (with_public_id u)
    else Raise (HTTPException 401 "Invalid OTP").
Proof.
  intros Hotp Hm. unfold check_otp, Py.get. rewrite !as_dict_field by done.
  rewrite Hm. destruct Hotp as [->|[->| ->]]; simpl; unfold Py.or; simpl;
    by destruct (String.eqb (login_otp req) m).
Qed.

(** X6. A login whose mobile matches a stored user never writes to the store.
    It returns that user (with [id] in place of [_id]) exactly when the OTP
    sent equals the user's stored OTP, if that is a non-empty string, and
    exactly when it equals the mobile, if the stored OTP is missing, [None] or
    empty; otherwise it fails with 401 "Invalid OTP". *)
Theorem login_known_mobile (e : env) (req : LoginRequest)
    (db : gmap string (list document)) (u : document) :
  find_one [("mobile", VStr (login_mobile req))] (collection db "user") = Some u →
  (login e req db).2 = db
  ∧ (∀ s, doc_fields u !! "otp" = Some (VStr s) → s ≠ "" →
          (login e req db).1
          = if String.eqb (login_otp req) s then Return (with_public_id u)
            else Raise (HTTPException 401 "Invalid OTP"))
  ∧ (doc_fields u !! "otp" = None ∨ doc_fields u !! "otp" = Some VNull
     ∨ doc_fields u !! "otp" = Some (VStr "") →
     (login e req db).1
     = if String.eqb (login_otp req) (login_mobile req) then Return (with_public_id u)
       else Raise (HTTPException 401 "Invalid OTP")).
Proof.
  intros Hu. unfold login. rewrite Hu. cbn [fst snd].
  split; [done|]. split.
  - intros s Hs Hne. by apply check_otp_stored.
  - intros Hotp. apply check_otp_fallback; [done|].
    apply find_one_Some in Hu as [_ Hm]. rewrite matches_mobile in Hm.
    by apply str_field_true.
Qed.

Lemma login_known_mobile_witness :
  login env0 (mkLoginRequest "5550100" "5550100") users_db
  = (Return (with_public_id (provisioned_user env_user "5550100")), users_db)
  ∧ login env0 (mkLoginRequest "5550100" "1234") users_db
    = (Raise (HTTPException 401 "Invalid OTP"), users_db).
Proof.
  assert (Hu : find_one [("mobile", VStr "5550100")] (collection users_db "user")
               = Some (provisioned_user env_user "5550100")) by reflexivity.
  split; apply injective_projections.
  - destruct (login_known_mobile env0 (mkLoginRequest "5550100" "5550100") users_db _ Hu)
      as (_ & H & _). by rewrite (H "5550100").
  - by destruct (login_known_mobile env0 (mkLoginRequest "5550100" "5550100") users_db _ Hu).
  - destruct (login_known_mobile env0 (mkLoginRequest "5550100" "1234") users_db _ Hu)
      as (_ & H & _). by rewrite (H "5550100").
  - by destruct (login_known_mobile env0 (mkLoginRequest "5550100" "1234") users_db _ Hu).
Defined.

(** What [login] does for a mobile no stored user has, given a well-formed
    and unused generated identifier. *)
Lemma login_unknown_mobile (e : env) (req : LoginRequest)
    (db : gmap string (list document)) :
  (∀ u, u ∈ collection db "user" →
        doc_fields u !! "mobile" ≠ Some (VStr (login_mobile req))) →
  Bson.ObjectId (Bson.str (new_id e)) = Some (new_id e) →
  (∀ u, u ∈ collection db "user" → doc_id u ≠ new_id e) →
  login e req db
  = (check_otp req (provisioned_user e (login_mobile req)),
     insert_one "user" (provisioned_user e (login_mobile req)) db).
Proof.
  intros Hmobile Hwf Hfresh. unfold login. rewrite find_one_None.
  2:{ intros d Hd. rewrite matches_mobile.
      destruct (str_field "mobile" (login_mobile req) d) eqn:E; [|done].
      apply str_field_true in E. by destruct (Hmobile d Hd). }
  rewrite User_new_default_otp. unfold create_document.
  fold (provisioned_user e (login_mobile req)). rewrite Hwf.
  rewrite collection_insert_one. unfold find_one. rewrite find_app.
  rewrite (find_nil_forall _ (collection db "user")).
  2:{ intros d Hd. apply matches_id_false. by apply Hfresh. }
  unfold find. cbn [List.filter app].
  assert (Hm : matches [("_id", VOid (new_id e))]
                 (provisioned_user e (login_mobile req)) = true) by by apply matches_id.
  by rewrite Hm.
Qed.

Lemma check_otp_provisioned_ok (e : env) (req : LoginRequest) :
  login_otp req = login_mobile req →
  check_otp req (provisioned_user e (login_mobile req))
  = Return (with_public_id (provisioned_user e (login_mobile req))).
Proof.
  intros Heq. destruct (provisioned_user_otp e (login_mobile req)) as [Hotp Hmob].
  destruct (decide (login_mobile req = "")) as [Hempty|Hne].
  - rewrite (check_otp_fallback req _ (login_mobile req)); [|by rewrite Hotp, Hempty; auto|done].
    by rewrite Heq, String.eqb_refl.
  - rewrite (check_otp_stored req _ (login_mobile req)) by done.
    by rewrite Heq, String.eqb_refl.
Qed.

(** X7. First-login provisioning: a login with a mobile no stored user has
    and with the OTP equal to that mobile succeeds at once, returning the new
    user under the generated identifier (as [id], without [_id]) and storing
    it; the same login repeated on the resulting store succeeds again and
    writes nothing, so no second user is created. *)
Theorem login_provisions_then_accepts (e e' : env) (req : LoginRequest)
    (db : gmap string (list document)) :
  (∀ u, u ∈ collection db "user" →
        doc_fields u !! "mobile" ≠ Some (VStr (login_mobile req))) →
  login_otp req = login_mobile req →
  Bson.ObjectId (Bson.str (new_id e)) = Some (new_id e) →
  (∀ u, u ∈ collection db "user" → doc_id u ≠ new_id e) →
  let u := provisioned_user e (login_mobile req) in
  let db1 := insert_one "user" u db in
  login e req db = (Return (with_public_id u), db1)
  ∧ with_public_id u !! "id" = Some (VStr (Bson.str (new_id e)))
  ∧ with_public_id u !! "_id" = None
  ∧ login e' req db1 = (Return (with_public_id u), db1).
Proof.
  intros Hmobile Hotp Hwf Hfresh u db1.
  split; [|split; [|split]].
  - rewrite login_unknown_mobile by done. by rewrite check_otp_provisioned_ok.
  - unfold with_public_id. by rewrite lookup_insert_eq.
  - apply with_public_id_has_id.
  - assert (Hu : find_one [("mobile", VStr (login_mobile req))] (collection db1 "user")
                 = Some u).
    { unfold db1. rewrite collection_insert_one. unfold find_one. rewrite find_app.
      rewrite (find_nil_forall _ (collection db "user")).
      2:{ intros d Hd. rewrite matches_mobile.
          destruct (str_field "mobile" (login_mobile req) d) eqn:E; [|done].
          apply str_field_true in E. by destruct (Hmobile d Hd). }
      unfold find. cbn [List.filter app].
      assert (Hm : matches [("mobile", VStr (login_mobile req))] u = true).
      { rewrite matches_mobile. apply str_field_true. apply provisioned_user_otp. }
      by rewrite Hm. }
    unfold login. rewrite Hu. unfold u. by rewrite check_otp_provisioned_ok.
Qed.

Lemma login_provisions_then_accepts_witness :
  (login env_user (mkLoginRequest "5550100" "5550100") ∅).1
  = Return (with_public_id (provisioned_user env_user "5550100"))
  ∧ login env0 (mkLoginRequest "5550100" "5550100") users_db
    = (Return (with_public_id (provisioned_user env_user "5550100")), users_db).
Proof.
  destruct (login_provisions_then_accepts env_user env0
              (mkLoginRequest "5550100" "5550100") ∅) as (H1 & _ & _ & H2).
  - intros u Hu. vm_compute in Hu. apply list_elem_of_In in Hu. destruct Hu.
  - reflexivity.
  - reflexivity.
  - intros u Hu. vm_compute in Hu. apply list_elem_of_In in Hu. destruct Hu.
  - split; [by rewrite H1 | exact H2].
Defined.

(** ** Changing the OTP, then logging in *)

(** When two filters select the same document, updating it through the first
    with fields that keep it matching the second leaves it the document the
    second selects. *)
Lemma update_first_find_one_other (q1 q2 : query) (upd : pydict)
    (c : list document) (u : document) :
  (∀ d, matches q2 d = true →
        matches q2 (Doc (doc_id d) (upd ∪ doc_fields d)) = true) →
  find_one q1 c = Some u → find_one q2 c = Some u →
  ∃ c', update_first q1 (SetFields upd) c = Some (Some c')
        ∧ find_one q2 c' = Some (Doc (doc_id u) (upd ∪ doc_fields u)).
Proof.
  intros Hkeep. induction c as [|x c IH]; [done|].
  unfold find_one, find in *. simpl.
  destruct (matches q1 x) eqn:E1, (matches q2 x) eqn:E2; simpl.
  - intros [= <-] _. eexists. split; [reflexivity|]. simpl. by rewrite Hkeep.
  - intros [= <-] H2. exfalso.
    assert (matches q2 x = true); [|congruence].
    by apply (find_one_Some q2 c x).
  - intros H1 [= <-]. exfalso.
    assert (matches q1 x = true); [|congruence].
    by apply (find_one_Some q1 c x).
  - intros H1 H2. destruct (IH H1 H2) as (c' & -> & Hc').
    eexists. split; [reflexivity|]. simpl. by rewrite E2.
Qed.

Lemma otp_update_keeps_mobile (m : string) (v : value) (d : document) :
  matches [("mobile", VStr m)] d = true →
  matches [("mobile", VStr m)] (Doc (doc_id d) ({[ "otp" := v ]} ∪ doc_fields d)) = true.
Proof.
  rewrite !matches_mobile. unfold str_field. simpl.
  by rewrite lookup_union_r by done.
Qed.

(** X8. After a successful OTP update of the user a mobile logs in as, with a
    non-empty new OTP, a login with that mobile succeeds exactly with the new
    OTP and fails with 401 for every other one (the old OTP included); with an
    empty new OTP the mobile itself becomes the accepted OTP again.  Neither
    login writes to the store. *)
Theorem update_otp_then_login (e e' : env) (user_id : string) (body : UpdateOtpRequest)
    (req : LoginRequest) (db : gmap string (list document)) (o : object_id)
    (u : document) :
  Bson.ObjectId user_id = Some o →
  find_one [("_id", VOid o)] (collection db "user") = Some u →
  find_one [("mobile", VStr (login_mobile req))] (collection db "user") = Some u →
  let db1 := (update_otp e user_id body db).2 in
  let u1 := Doc o (<["otp" := VStr (new_otp body)]> (doc_fields u)) in
  (update_otp e user_id body db).1 = Return true
  ∧ (new_otp body ≠ "" →
     login e' req db1
     = (if String.eqb (login_otp req) (new_otp body) then Return (with_public_id u1)
        else Raise (HTTPException 401 "Invalid OTP"), db1))
  ∧ (new_otp body = "" →
     login e' req db1
     = (if String.eqb (login_otp req) (login_mobile req) then Return (with_public_id u1)
        else Raise (HTTPException 401 "Invalid OTP"), db1)).
Proof.
  intros Ho Hid Hmob db1 u1.
  destruct (update_first_find_one_other [("_id", VOid o)]
              [("mobile", VStr (login_mobile req))] {[ "otp" := VStr (new_otp body) ]}
              (collection db "user") u) as (c' & Hupd & Hfind); [|done|done|].
  { intros d. apply otp_update_keeps_mobile. }
  assert (Hido : doc_id u = o) by (by apply find_one_Some in Hid as [_ ?%matches_id]).
  rewrite Hido, <- insert_union_singleton_l in Hfind. fold u1 in Hfind.
  assert (Hres : update_otp e user_id body db = (Return true, <["user" := c']> db)).
  { unfold update_otp, oid, update_one. by rewrite Ho, Hupd. }
  assert (Hdb : db1 = <["user" := c']> db) by (unfold db1; by rewrite Hres).
  assert (Hm : doc_fields u1 !! "mobile" = Some (VStr (login_mobile req))).
  { unfold u1. simpl. rewrite lookup_insert_ne by done.
    apply find_one_Some in Hmob as [_ Hm]. rewrite matches_mobile in Hm.
    by apply str_field_true. }
  assert (Hotp : doc_fields u1 !! "otp" = Some (VStr (new_otp body))).
  { unfold u1. simpl. by rewrite lookup_insert_eq. }
  assert (Hlogin : login e' req db1 = (check_otp req u1, db1)).
  { unfold login. by rewrite Hdb, collection_insert, Hfind. }
  split; [by rewrite Hres|]. rewrite Hlogin. split.
  - intros Hne. by rewrite (check_otp_stored req u1 (new_otp body)).
  - intros Hempty. rewrite (check_otp_fallback req u1 (login_mobile req)); [done| |done].
    right. right. by rewrite Hotp, Hempty.
Qed.

Lemma update_otp_then_login_witness :
  let db1 := (update_otp env0 "65f0a1b2c3d4e5f6012345bb" (mkUpdateOtpRequest "2222")
                users_db).2 in
  (login env0 (mkLoginRequest "5550100" "2222") db1).1
  = Return (with_public_id
              (Doc (Oid "65f0a1b2c3d4e5f6012345bb")
                   (<["otp" := VStr "2222"]>
                      (doc_fields (provisioned_user env_user "5550100")))))
  ∧ (login env0 (mkLoginRequest "5550100" "5550100") db1).1
    = Raise (HTTPException 401 "Invalid OTP").
Proof.
  intros db1.
  destruct (update_otp_then_login env0 env0 "65f0a1b2c3d4e5f6012345bb"
              (mkUpdateOtpRequest "2222") (mkLoginRequest "5550100" "2222") users_db
              (Oid "65f0a1b2c3d4e5f6012345bb") (provisioned_user env_user "5550100"))
    as (_ & H1 & _); [reflexivity..|].
  destruct (update_otp_then_login env0 env0 "65f0a1b2c3d4e5f6012345bb"
              (mkUpdateOtpRequest "2222") (mkLoginRequest "5550100" "5550100") users_db
              (Oid "65f0a1b2c3d4e5f6012345bb") (provisioned_user env_user "5550100"))
    as (_ & H2 & _); [reflexivity..|].
  split.
  - unfold db1. rewrite H1 by discriminate. reflexivity.
  - unfold db1. rewrite H2 by discriminate. reflexivity.
Defined.

(** ** Granting the admin role *)

(** Updating through a filter on [_id]: the first document with that
    identifier takes the new fields and stays the one the filter selects. *)
Lemma update_first_by_id (o : object_id) (upd : update) (c : list document)
    (u : document) (f' : gmap string value) :
  find_one [("_id", VOid o)] c = Some u →
  apply_update upd (doc_fields u) = Some f' →
  ∃ c', update_first [("_id", VOid o)] upd c = Some (Some c')
        ∧ find_one [("_id", VOid o)] c' = Some (Doc o f').
Proof.
  intros Hu Hf. induction c as [|x c IH]; [done|].
  unfold find_one, find in *. cbn [List.filter update_first] in *.
  destruct (matches [("_id", VOid o)] x) eqn:E.
  - cbn [head] in Hu. injection Hu as ->. rewrite Hf. eexists. split; [reflexivity|].
    apply matches_id in E. cbn [List.filter].
    assert (Hm : matches [("_id", VOid o)] (Doc (doc_id u) f') = true)
      by (by apply matches_id).
    rewrite Hm. cbn [head]. by rewrite E.
  - destruct (IH Hu) as (c' & -> & Hc'). eexists. split; [reflexivity|].
    cbn [option_map List.filter]. by rewrite E.
Qed.

(** X9. When [owner_user_id] is the identifier of a stored user whose [roles]
    is a sub-document (or is missing), [create_masjid] returns the new masjid
    identifier, stores the masjid, and leaves that user with the role [admin]
    under the new masjid identifier, every other role and field kept. *)
Theorem create_masjid_grants_admin (e : env) (body : CreateMasjid)
    (db : gmap string (list document)) (o : object_id) (u : document)
    (roles : gmap string string) :
  Bson.ObjectId (cm_owner_user_id body) = Some o →
  find_one [("_id", VOid o)] (collection db "user") = Some u →
  roles_of u = Some roles →
  ∃ db' : gmap string (list document),
    create_masjid e body db = (Return (Bson.str (new_id e)), db')
    ∧ find_one [("_id", VOid o)] (collection db' "user")
      = Some (Doc o (<["roles" := VMap (<[Bson.str (new_id e) := "admin"]> roles)]>
                       (doc_fields u)))
    ∧ collection db' "masjid" = (collection db "masjid" ++ [masjid_record e body])%list.
Proof.
  intros Ho Hu Hroles.
  assert (Hf : apply_update (SetDotted "roles" (Bson.str (new_id e)) "admin") (doc_fields u)
               = Some (<["roles" := VMap (<[Bson.str (new_id e) := "admin"]> roles)]>
                         (doc_fields u))).
  { unfold roles_of in Hroles. simpl.
    destruct (doc_fields u !! "roles") as [[]|]; try done.
    - by injection Hroles as ->.
    - injection Hroles as <-. by rewrite insert_empty. }
  unfold create_masjid. rewrite Masjid_new_of_body. unfold create_document.
  fold (masjid_record e body). unfold oid. rewrite Ho. unfold update_one.
  rewrite collection_insert_one_ne by done.
  destruct (update_first_by_id o _ _ u _ Hu Hf) as (c' & -> & Hc').
  eexists. split; [reflexivity|]. split.
  - by rewrite collection_insert.
  - unfold collection at 1. rewrite lookup_insert_ne by done.
    apply collection_insert_one.
Qed.

Lemma create_masjid_grants_admin_witness :
  ∃ (db' : gmap string (list document)) (u' : document),
    create_masjid env0 (mkCreateMasjid "Masjid An-Noor" None None "65f0a1b2c3d4e5f6012345bb")
                  users_db
    = (Return "65f0a1b2c3d4e5f601234567", db')
    ∧ find_one [("_id", VOid (Oid "65f0a1b2c3d4e5f6012345bb"))] (collection db' "user")
      = Some u'
    ∧ doc_fields u' !! "roles"
      = Some (VMap {[ "65f0a1b2c3d4e5f601234567" := "admin" ]}).
Proof.
  destruct (create_masjid_grants_admin env0
              (mkCreateMasjid "Masjid An-Noor" None None "65f0a1b2c3d4e5f6012345bb")
              users_db (Oid "65f0a1b2c3d4e5f6012345bb")
              (provisioned_user env_user "5550100") ∅)
    as (db' & Hr & Hu & _); [reflexivity..|].
  exists db'. eexists. split; [exact Hr|]. split; [exact Hu|]. reflexivity.
Defined.

(** ** Creating a project with listed frequencies *)

Lemma forallb_member (allowed l : list string) :
  forallb (fun s => bool_decide (s ∈ allowed)) l = true
  ↔ Forall (fun s => s ∈ allowed) l.
Proof.
  induction l as [|x l IH]; simpl.
  - split; [constructor | done].
  - rewrite andb_true_iff, IH, bool_decide_eq_true. split.
    + intros [? ?]. by constructor.
    + by inversion 1.
Qed.

(** X10. A create-project request that lists its [allowed_frequencies]
    succeeds exactly when every listed value is one of the four frequency
    names: then the project is stored with that list (the empty list included)
    and its identifier returned; otherwise the request fails with an uncaught
    validation error and nothing is stored. *)
Theorem create_project_listed_frequencies (e : env) (body : CreateProject)
    (db : gmap string (list document)) (l : list string) :
  cp_allowed_frequencies body = Some l →
  (Forall (fun s => s ∈ Frequency) l →
   create_project e body db
   = (Return (Bson.str (new_id e)),
      insert_one "project"
        (Doc (new_id e)
             (<["created_at" := VDate (now e)]>
                (model_dump (project_with_frequencies body l))))
        db))
  ∧ (¬ Forall (fun s => s ∈ Frequency) l →
     create_project e body db = (Raise ValidationError, db)).
Proof.
  intros Hl.
  assert (Hnew : Project_new (model_dump body)
                 = match list_of_literal Frequency (VList l) with
                   | Some l' => Return (project_with_frequencies body l')
                   | None => Raise ValidationError
                   end).
  { unfold Project_new, model_dump, CreateProject_model. run_model.
    rewrite Hl. simpl. by destruct (forallb _ l). }
  unfold create_project. rewrite Hnew. unfold list_of_literal. split.
  - intros H%forallb_member. by rewrite H.
  - intros H. destruct (forallb _ l) eqn:E; [|done].
    by apply forallb_member in E.
Qed.

Lemma create_project_listed_frequencies_witness :
  (create_project env_roof public_roof ∅).1 = Return "65f0a1b2c3d4e5f601234501"
  ∧ create_project env_roof
      (mkCreateProject "65f0a1b2c3d4e5f6012345cc" "Roof repair" None true None
                       None None None (Some ["daily"])) ∅
    = (Raise ValidationError, ∅).
Proof.
  split.
  - destruct (create_project_listed_frequencies env_roof public_roof ∅
                ["one_time"; "monthly"] eq_refl) as [H _].
    rewrite H; [reflexivity|]. unfold Frequency. repeat constructor.
  - apply (create_project_listed_frequencies env_roof
             (mkCreateProject "65f0a1b2c3d4e5f6012345cc" "Roof repair" None true None
                              None None None (Some ["daily"])) ∅ ["daily"] eq_refl).
    intros H. inversion H as [|? ? Hin _]. unfold Frequency in Hin.
    apply list_elem_of_In in Hin. simpl in Hin. intuition discriminate.
Defined.

(** ** Recording money and reading the ledger *)

Section LedgerEffects.

Variable float_of_str : string → option float.

(** The ledger of a store with numeric amounts. *)
Lemma project_ledger_value (project_id : string) (db : gmap string (list document)) :
  numeric_store db →
  project_ledger float_of_str project_id db
  = Return (mkLedger
              (float_sum (amount_of <$> approved_contributions project_id db))
              (float_sum (amount_of <$> project_expenses project_id db))
              (PrimFloat.sub
                 (float_sum (amount_of <$> approved_contributions project_id db))
                 (float_sum (amount_of <$> project_expenses project_id db)))).
Proof.
  intros [Hc He]. unfold project_ledger.
  rewrite find_approved_contributions, find_project_expenses.
  by rewrite !add_amounts_foldl by (by apply Forall_filter_bool).
Qed.

Lemma float_sum_snoc (l : list float) (x : float) :
  float_sum (l ++ [x]) = PrimFloat.add (float_sum l) x.
Proof. unfold float_sum. by rewrite foldl_app. Qed.

Lemma contribution_record_fields (e : env) (c : Contribution) :
  let f := <["created_at" := VDate (now e)]> (model_dump c) in
  f !! "project_id" = Some (VStr (contribution_project_id c))
  ∧ f !! "approved" = Some (VBool (contribution_approved c))
  ∧ f !! "amount" = Some (VNum (contribution_amount c)).
Proof. unfold model_dump, Contribution_model. simpl. by simplify_map_eq. Qed.

(** X11. On a store with numeric amounts, a successful add-contribution
    (amount above zero, valid mode) raises the [contributed] figure of its
    project's ledger by exactly the amount sent, leaves [spent] as it was, and
    leaves the ledger of every other project unchanged. *)
Theorem add_contribution_raises_contributed (e : env) (body : AddContribution)
    (db : gmap string (list document)) :
  numeric_store db →
  PrimFloat.ltb 0%float (ac_amount body) = true →
  ac_mode body ∈ PaymentMode →
  let db' := (add_contribution e body db).2 in
  (∃ c s : float,
      project_ledger float_of_str (ac_project_id body) db
      = Return (mkLedger c s (PrimFloat.sub c s))
      ∧ project_ledger float_of_str (ac_project_id body) db'
        = Return (mkLedger (PrimFloat.add c (ac_amount body)) s
                           (PrimFloat.sub (PrimFloat.add c (ac_amount body)) s)))
  ∧ ∀ pid, pid ≠ ac_project_id body →
           project_ledger float_of_str pid db' = project_ledger float_of_str pid db.
Proof.
  intros Hn Hpos Hmode db'.
  assert (Hdb : db' = insert_one "contribution"
                        (Doc (new_id e) (<["created_at" := VDate (now e)]>
                                           (model_dump (contribution_of body)))) db).
  { unfold db', add_contribution. by rewrite Contribution_new_accepts. }
  destruct (contribution_record_fields e (contribution_of body)) as (HP & HA & HM).
  simpl in HP, HA, HM.
  assert (Hn' : numeric_store db').
  { destruct Hn as [Hc He]. rewrite Hdb. split.
    - rewrite collection_insert_one. apply Forall_app. split; [done|].
      constructor; [|constructor]. unfold numeric_amount. simpl. by rewrite HM.
    - by rewrite collection_insert_one_ne. }
  assert (Hexp : ∀ pid, project_expenses pid db' = project_expenses pid db).
  { intros pid. unfold project_expenses. by rewrite Hdb, collection_insert_one_ne. }
  split.
  - eexists. eexists. split; [by apply project_ledger_value|].
    rewrite project_ledger_value by done. rewrite Hexp.
    assert (Happ : approved_contributions (ac_project_id body) db'
                   = (approved_contributions (ac_project_id body) db
                      ++ [Doc (new_id e) (<["created_at" := VDate (now e)]>
                                            (model_dump (contribution_of body)))])%list).
    { unfold approved_contributions. rewrite Hdb, collection_insert_one, filter_app.
      f_equal. cbn [List.filter]. unfold str_field, true_field. cbn [doc_fields].
      by rewrite HP, HA, String.eqb_refl. }
    rewrite Happ, fmap_snoc, float_sum_snoc.
    assert (Hamt : amount_of (Doc (new_id e) (<["created_at" := VDate (now e)]>
                                                (model_dump (contribution_of body))))
                   = ac_amount body).
    { unfold amount_of. cbn [doc_fields]. by rewrite HM. }
    by rewrite Hamt.
  - intros pid Hpid. rewrite !project_ledger_value by done. rewrite Hexp.
    assert (Happ : approved_contributions pid db' = approved_contributions pid db).
    { unfold approved_contributions. rewrite Hdb, collection_insert_one, filter_app.
      cbn [List.filter]. unfold str_field at 2. cbn [doc_fields]. rewrite HP.
      apply String.eqb_neq in Hpid. rewrite String.eqb_sym, Hpid. simpl.
      by rewrite app_nil_r. }
    by rewrite Happ.
Qed.

Lemma Expense_new_accepts (body : AddExpense) :
  PrimFloat.ltb 0%float (ae_amount body) = true →
  Expense_new (model_dump body)
  = Return (mkExpense (ae_masjid_id body) (ae_project_id body) (ae_amount body)
                      (ae_description body) (ae_spent_at body)
                      (ae_added_by_user_id body) (ae_attachment_url body)).
Proof.
  intros H. unfold Expense_new, model_dump, AddExpense_model. run_model.
  unfold gt0. by rewrite H.
Qed.

Lemma Expense_new_rejects (body : AddExpense) :
  PrimFloat.ltb 0%float (ae_amount body) = false →
  Expense_new (model_dump body) = Raise ValidationError.
Proof.
  intros H. unfold Expense_new, model_dump, AddExpense_model. run_model.
  unfold gt0. by rewrite H.
Qed.

(** X12. An add-expense request with an amount that is not above zero fails
    with an uncaught validation error and stores nothing.  With an amount above
    zero, on a store with numeric amounts, it succeeds and raises the [spent]
    figure of its project's ledger by exactly that amount, [contributed]
    staying as it was, whatever [masjid_id] the body names. *)
Theorem add_expense_raises_spent (e : env) (body : AddExpense)
    (db : gmap string (list document)) :
  (PrimFloat.ltb 0%float (ae_amount body) = false →
   add_expense e body db = (Raise ValidationError, db))
  ∧ (numeric_store db →
     PrimFloat.ltb 0%float (ae_amount body) = true →
     (add_expense e body db).1 = Return (Bson.str (new_id e))
     ∧ ∃ c s : float,
         project_ledger float_of_str (ae_project_id body) db
         = Return (mkLedger c s (PrimFloat.sub c s))
         ∧ project_ledger float_of_str (ae_project_id body) (add_expense e body db).2
           = Return (mkLedger c (PrimFloat.add s (ae_amount body))
                              (PrimFloat.sub c (PrimFloat.add s (ae_amount body))))).
Proof.
  split.
  - intros H. unfold add_expense. by rewrite Expense_new_rejects.
  - intros Hn Hpos. unfold add_expense. rewrite Expense_new_accepts by done.
    unfold create_document. cbn [fst snd]. split; [done|].
    set (d := Doc (new_id e) _).
    assert (HP : doc_fields d !! "project_id" = Some (VStr (ae_project_id body))
                 ∧ doc_fields d !! "amount" = Some (VNum (ae_amount body))).
    { unfold d, model_dump, Expense_model. simpl. by simplify_map_eq. }
    destruct HP as [HP HM].
    assert (Hn' : numeric_store (insert_one "expense" d db)).
    { destruct Hn as [Hc He]. split.
      - by rewrite collection_insert_one_ne.
      - rewrite collection_insert_one. apply Forall_app. split; [done|].
        constructor; [|constructor]. unfold numeric_amount. by rewrite HM. }
    eexists. eexists. split; [by apply project_ledger_value|].
    rewrite project_ledger_value by done.
    assert (Hc : approved_contributions (ae_project_id body) (insert_one "expense" d db)
                 = approved_contributions (ae_project_id body) db).
    { unfold approved_contributions. by rewrite collection_insert_one_ne. }
    assert (Hx : project_expenses (ae_project_id body) (insert_one "expense" d db)
                 = (project_expenses (ae_project_id body) db ++ [d])%list).
    { unfold project_expenses. rewrite collection_insert_one, filter_app.
      f_equal. cbn [List.filter]. unfold str_field.
      by rewrite HP, String.eqb_refl. }
    rewrite Hc, Hx, fmap_snoc, float_sum_snoc.
    assert (Hamt : amount_of d = ae_amount body).
    { unfold amount_of. by rewrite HM. }
    by rewrite Hamt.
Qed.

End LedgerEffects.

Lemma add_contribution_raises_contributed_witness :
  numeric_store ledger_db
  ∧ ∃ c s : float,
      project_ledger (fun _ => None) "p1" ledger_db
      = Return (mkLedger c s (PrimFloat.sub c s))
      ∧ project_ledger (fun _ => None) "p1"
          (add_contribution env0
             (mkAddContribution "p1" None None None 25 "gpay" None None None)
             ledger_db).2
        = Return (mkLedger (PrimFloat.add c 25) s
                           (PrimFloat.sub (PrimFloat.add c 25) s)).
Proof.
  assert (Hn : numeric_store ledger_db) by (split; repeat constructor).
  split; [exact Hn|].
  destruct (add_contribution_raises_contributed (fun _ => None) env0
              (mkAddContribution "p1" None None None 25 "gpay" None None None)
              ledger_db Hn) as [H _]; [reflexivity | | exact H].
  unfold PaymentMode. simpl. repeat constructor.
Defined.

Lemma add_expense_raises_spent_witness :
  add_expense env0 (mkAddExpense "m1" "p1" 0 "carpet" None None None) ledger_db
  = (Raise ValidationError, ledger_db)
  ∧ (add_expense env0 (mkAddExpense "m1" "p1" 40 "carpet" None None None) ledger_db).1
    = Return "65f0a1b2c3d4e5f601234567".
Proof.
  split.
  - apply (add_expense_raises_spent (fun _ => None) env0
             (mkAddExpense "m1" "p1" 0 "carpet" None None None) ledger_db).
    reflexivity.
  - apply (add_expense_raises_spent (fun _ => None) env0
             (mkAddExpense "m1" "p1" 40 "carpet" None None None) ledger_db).
    + split; repeat constructor.
    + reflexivity.
Defined.

(** ** What the write requests keep *)

Lemma serve_contributions (e : env) (r : request) (db : gmap string (list document)) :
  collection (serve e r db) "contribution" = collection db "contribution"
  ∨ ∃ c : Contribution,
      contribution_approved c = true
      ∧ collection (serve e r db) "contribution"
        = (collection db "contribution"
           ++ [Doc (new_id e) (<["created_at" := VDate (now e)]> (model_dump c))])%list.
Proof.
  destruct r; simpl;
    rewrite ?login_other, ?update_otp_other, ?create_masjid_other,
            ?create_project_other, ?join_project_other by done; auto.
  - unfold add_contribution.
    destruct (Contribution_new (model_dump body)) as [c|] eqn:E; [|by left].
    right. exists c. split; [|apply collection_insert_one].
    revert E. unfold Contribution_new, model_dump at 1, AddContribution_model.
    run_model. unfold gt0.
    destruct (PrimFloat.ltb 0 (ac_amount body)); [|done]. simpl.
    destruct (bool_decide _); [|done]. simpl. by intros [= <-].
  - left. by apply add_expense_other.
Qed.

(** X13. No request stores an unapproved contribution: in every store the
    service can reach from the empty one, every contribution record has
    [approved = True], so the approved contributions of a project are all of
    its contributions. *)
Theorem reachable_contributions_approved (db : gmap string (list document)) :
  reachable db →
  Forall is_approved (collection db "contribution")
  ∧ ∀ pid, approved_contributions pid db = project_contributions pid db.
Proof.
  intros Hr.
  assert (H : Forall is_approved (collection db "contribution")).
  { induction Hr as [|e r db _ IH].
    - unfold collection. rewrite lookup_empty. constructor.
    - destruct (serve_contributions e r db) as [->|(c & Hc & ->)]; [done|].
      apply Forall_app. split; [done|]. constructor; [|constructor].
      destruct (contribution_record_fields e c) as (_ & HA & _).
      unfold is_approved. simpl in *. by rewrite HA, Hc. }
  split; [done|]. intros pid. unfold approved_contributions, project_contributions.
  induction H as [|d l Hd _ IH]; simpl; [done|].
  unfold is_approved in Hd. unfold true_field at 1. rewrite Hd, andb_true_r.
  by rewrite IH.
Qed.

Lemma reachable_contributions_approved_witness :
  reachable landing_db
  ∧ approved_contributions "65f0a1b2c3d4e5f601234501" landing_db = [guest_record].
Proof.
  split; [apply landing_db_reachable|].
  destruct (reachable_contributions_approved landing_db landing_db_reachable) as [_ H].
  rewrite H. reflexivity.
Defined.

Section KeepsDocuments.

Lemma keeps_documents_refl (db : gmap string (list document)) : keeps_documents db db.
Proof. by intros name. Qed.

Lemma keeps_documents_trans (db1 db2 db3 : gmap string (list document)) :
  keeps_documents db1 db2 → keeps_documents db2 db3 → keeps_documents db1 db3.
Proof. intros H1 H2 name. transitivity (ids_of name db2); [apply H1 | apply H2]. Qed.

Lemma insert_one_keeps (name : string) (d : document) (db : gmap string (list document)) :
  keeps_documents db (insert_one name d db).
Proof.
  intros name'. unfold ids_of. destruct (decide (name = name')) as [<-|Hne].
  - rewrite collection_insert_one, fmap_app. by apply prefix_app_r.
  - by rewrite collection_insert_one_ne.
Qed.

Lemma update_first_ids (q : query) (u : update) (c c' : list document) :
  update_first q u c = Some (Some c') → doc_id <$> c' = doc_id <$> c.
Proof.
  revert c'. induction c as [|x c IH]; intros c'; simpl; [done|].
  destruct (matches q x).
  - destruct (apply_update u (doc_fields x)); [|done]. by intros [= <-].
  - destruct (update_first q u c) as [[c''|]|]; simpl; try done.
    intros [= <-]. rewrite !fmap_cons. by rewrite (IH c'' eq_refl).
Qed.

Lemma update_one_keeps (name : string) (q : query) (u : update) (upsert : bool)
    (i : object_id) (db db' : gmap string (list document)) (n : nat) :
  update_one name q u upsert i db = Return (n, db') → keeps_documents db db'.
Proof.
  unfold update_one.
  destruct (update_first q u (collection db name)) as [[c'|]|] eqn:E.
  - intros [= _ <-] name'. unfold ids_of.
    destruct (decide (name = name')) as [<-|Hne].
    + by rewrite collection_insert, (update_first_ids _ _ _ _ E).
    + unfold collection at 2. by rewrite lookup_insert_ne.
  - done.
  - destruct upsert.
    + destruct (apply_update u (query_fields q)); [|done].
      intros [= _ <-]. apply insert_one_keeps.
    + intros [= _ <-]. apply keeps_documents_refl.
Qed.

(** X14. No request deletes, moves or re-identifies a stored document: after
    any write request, successful or not, every collection still holds the
    documents it held, under the same identifiers and in the same order, new
    documents coming after them. *)
Theorem serve_keeps_documents (e : env) (r : request) (db : gmap string (list document)) :
  keeps_documents db (serve e r db).
Proof.
  destruct r; simpl.
  - unfold login. destruct (find_one _ _); [apply keeps_documents_refl|].
    rewrite User_new_default_otp. simpl.
    destruct (Bson.ObjectId _); [destruct (find_one _ _)|]; apply insert_one_keeps.
  - unfold update_otp. destruct (oid user_id); [|apply keeps_documents_refl].
    destruct (update_one _ _ _ _ _ _) as [[n db']|] eqn:E;
      [|apply keeps_documents_refl].
    apply update_one_keeps in E. by destruct (n =? 0)%nat.
  - unfold create_masjid. rewrite Masjid_new_of_body. simpl.
    destruct (oid _); simpl; [|apply insert_one_keeps].
    destruct (update_one _ _ _ _ _ _) as [[n db']|] eqn:E; simpl;
      [|apply insert_one_keeps].
    apply update_one_keeps in E.
    eapply keeps_documents_trans; [apply insert_one_keeps | exact E].
  - unfold create_project. destruct (Project_new _); [|apply keeps_documents_refl].
    apply insert_one_keeps.
  - unfold join_project.
    destruct (update_one _ _ _ _ _ _) as [[n db']|] eqn:E;
      [|apply keeps_documents_refl].
    by apply update_one_keeps in E.
  - unfold add_contribution. destruct (Contribution_new _); [|apply keeps_documents_refl].
    apply insert_one_keeps.
  - unfold add_expense. destruct (Expense_new _); [|apply keeps_documents_refl].
    apply insert_one_keeps.
Qed.

End KeepsDocuments.

(** ** Landing page totals and summaries *)

Section SummaryFacts.

Variable float_of_str : string → option float.

(** The landing-page loop shows the cursor's records in order and adds their
    amounts left to right. *)
Lemma recent_loop_foldl (total : float) (contribs : list pydict) (cursor : list document) :
  Forall numeric_amount cursor →
  recent_loop float_of_str total contribs cursor
  = Return ((contribs ++ ((display ∘ with_public_id) <$> cursor))%list,
            foldl PrimFloat.add total (amount_of <$> cursor)).
Proof.
  intros H. revert total contribs.
  induction H as [|d cursor Hd _ IH]; intros total contribs; simpl.
  - by rewrite app_nil_r.
  - rewrite py_float_item_amount by done. simpl. rewrite IH.
    by rewrite <- app_assoc.
Qed.

(** X15. For a public project, on a store with numeric amounts, the landing
    page shows the project with its [id], at most fifty entries (the approved
    contributions of the project, newest first, cut after fifty), and a [total]
    that is the sum over those same listed contributions only. *)
Theorem public_project_recent_cap (slug : string) (db : gmap string (list document))
    (p0 : document) :
  find_one [("landing_slug", VStr slug); ("is_public", VBool true)]
           (collection db "project") = Some p0 →
  numeric_store db →
  let shown := recent_contributions (Bson.str (doc_id p0)) db in
  public_project float_of_str slug db
  = Return (mkPublicProject (with_public_id p0)
              ((display ∘ with_public_id) <$> shown)
              (float_sum (amount_of <$> shown)))
  ∧ (length shown ≤ 50)%nat.
Proof.
  intros Hp [Hc _] shown. split.
  - unfold public_project. rewrite Hp.
    assert (Hid : Py.get (with_public_id p0) "id" = VStr (Bson.str (doc_id p0))).
    { unfold Py.get, with_public_id. by rewrite lookup_insert_eq. }
    rewrite Hid, find_approved_contributions. fold (recent_contributions (Bson.str (doc_id p0)) db).
    fold shown. rewrite recent_loop_foldl; [done|].
    unfold shown, recent_contributions.
    by apply Forall_take, Forall_sort_desc, Forall_filter_bool.
  - unfold shown, recent_contributions. rewrite length_take. lia.
Qed.

(** The nested loops of the masjid summary add the amounts project after
    project. *)
Lemma summary_loop_foldl (ct et : float) (pids : list string)
    (db : gmap string (list document)) :
  numeric_store db →
  summary_loop float_of_str ct et pids db
  = Return (foldl PrimFloat.add ct
              (amount_of <$> (pids ≫= fun pid => approved_contributions pid db)),
            foldl PrimFloat.add et
              (amount_of <$> (pids ≫= fun pid => project_expenses pid db))).
Proof.
  intros [Hc He]. revert ct et. induction pids as [|pid pids IH]; intros ct et; [done|].
  cbn [summary_loop]. rewrite find_approved_contributions, find_project_expenses.
  rewrite !(add_amounts_foldl float_of_str) by (by apply Forall_filter_bool).
  simpl. rewrite IH. by rewrite !fmap_app, !foldl_app.
Qed.

Lemma bind_project_ids {B} (g : string → list B) (ps : list document) :
  ((fun p => Bson.str (doc_id p)) <$> ps) ≫= g
  = ps ≫= (fun p => g (Bson.str (doc_id p))).
Proof. induction ps as [|p ps IH]; [done|]. cbn. by rewrite IH. Qed.

(** X16. On a store with numeric amounts, the masjid summary counts the
    projects whose [masjid_id] is the given one and reports, as [contributed]
    and [spent], the sums of the approved contributions and of the expenses of
    those projects taken project after project, with
    [balance = contributed - spent]; a masjid without projects gets zeros. *)
Theorem masjid_summary_sums (masjid_id : string) (db : gmap string (list document)) :
  numeric_store db →
  let c := float_sum (amount_of <$> masjid_contributions masjid_id db) in
  let s := float_sum (amount_of <$> masjid_expenses masjid_id db) in
  masjid_summary float_of_str masjid_id db
  = Return (mkMasjidSummary (length (projects_of masjid_id db)) c s (PrimFloat.sub c s))
  ∧ (projects_of masjid_id db = [] →
     masjid_summary float_of_str masjid_id db
     = Return (mkMasjidSummary 0 0%float 0%float 0%float)).
Proof.
  intros Hn c s.
  assert (H : masjid_summary float_of_str masjid_id db
              = Return (mkMasjidSummary (length (projects_of masjid_id db)) c s
                                        (PrimFloat.sub c s))).
  { unfold masjid_summary. rewrite find_masjid_projects.
    rewrite summary_loop_foldl by done. simpl.
    unfold c, s, masjid_contributions, masjid_expenses, float_sum.
    by rewrite !bind_project_ids. }
  split; [exact H|]. intros Hnil. rewrite H. unfold c, s, masjid_contributions,
    masjid_expenses. by rewrite Hnil.
Qed.

(** X17. For a masjid with exactly one project, on a store with numeric
    amounts, the masjid summary reports one project and the very figures of
    that project's ledger. *)
Theorem masjid_summary_single_project (masjid_id : string)
    (db : gmap string (list document)) (p : document) :
  numeric_store db →
  projects_of masjid_id db = [p] →
  ∃ L : Ledger,
    project_ledger float_of_str (Bson.str (doc_id p)) db = Return L
    ∧ masjid_summary float_of_str masjid_id db
      = Return (mkMasjidSummary 1 (contributed L) (spent L) (balance L)).
Proof.
  intros Hn Hp. eexists. split; [by apply project_ledger_value|].
  unfold masjid_summary. rewrite find_masjid_projects, Hp.
  rewrite summary_loop_foldl by done. simpl. by rewrite !app_nil_r.
Qed.

(** X18. On a store with numeric amounts, the super summary reports the
    numbers of masjid and project records and, as [contributed] and [spent],
    the sums over every approved contribution and every expense in the store,
    whatever project they name, with [balance = contributed - spent]. *)
Theorem super_summary_sums (db : gmap string (list document)) :
  numeric_store db →
  let c := float_sum (amount_of <$> List.filter (true_field "approved")
                                      (collection db "contribution")) in
  let s := float_sum (amount_of <$> collection db "expense") in
  super_summary float_of_str db
  = Return (mkSuperSummary (length (collection db "masjid"))
                           (length (collection db "project")) c s (PrimFloat.sub c s)).
Proof.
  intros [Hc He] c s. unfold super_summary, count_documents.
  rewrite !find_all.
  rewrite (find_ext [("approved", VBool true)] (true_field "approved")).
  2:{ intros d. rewrite matches_cons_true, matches_nil by done. by rewrite andb_true_r. }
  by rewrite !(add_amounts_foldl float_of_str) by (by try apply Forall_filter_bool).
Qed.

End SummaryFacts.

Lemma landing_db_numeric : numeric_store landing_db.
Proof. apply reachable_numeric, landing_db_reachable. Qed.

Lemma public_project_recent_cap_witness :
  numeric_store landing_db
  ∧ ∃ r : PublicProject,
      public_project (fun _ => None) "roof" landing_db = Return r
      ∧ pp_total r = 25%float
      ∧ length (pp_recent_contributions r) = 1%nat.
Proof.
  split; [apply landing_db_numeric|].
  destruct (public_project_recent_cap (fun _ => None) "roof" landing_db roof_record)
    as [H _]; [reflexivity | apply landing_db_numeric |].
  eexists. split; [exact H|]. split; reflexivity.
Defined.

Lemma masjid_summary_sums_witness :
  numeric_store landing_db
  ∧ masjid_summary (fun _ => None) "65f0a1b2c3d4e5f6012345cc" landing_db
    = Return (mkMasjidSummary 2 25 0 25).
Proof.
  split; [apply landing_db_numeric|].
  destruct (masjid_summary_sums (fun _ => None) "65f0a1b2c3d4e5f6012345cc" landing_db
              landing_db_numeric) as [H _].
  rewrite H. vm_compute. reflexivity.
Defined.

Lemma roof_db_numeric : numeric_store roof_db.
Proof. split; repeat constructor. Qed.

Lemma masjid_summary_single_project_witness :
  numeric_store roof_db
  ∧ projects_of "65f0a1b2c3d4e5f6012345cc" roof_db = [roof_record]
  ∧ ∃ L : Ledger,
      project_ledger (fun _ => None) "65f0a1b2c3d4e5f601234501" roof_db = Return L
      ∧ masjid_summary (fun _ => None) "65f0a1b2c3d4e5f6012345cc" roof_db
        = Return (mkMasjidSummary 1 (contributed L) (spent L) (balance L)).
Proof.
  split; [apply roof_db_numeric|]. split; [reflexivity|].
  apply (masjid_summary_single_project (fun _ => None) "65f0a1b2c3d4e5f6012345cc"
           roof_db roof_record roof_db_numeric eq_refl).
Defined.

Lemma super_summary_sums_witness :
  numeric_store ledger_db
  ∧ super_summary (fun _ => None) ledger_db = Return (mkSuperSummary 0 0 570 155 415).
Proof.
  assert (Hn : numeric_store ledger_db) by (split; repeat constructor).
  split; [exact Hn|].
  rewrite (super_summary_sums (fun _ => None) ledger_db Hn). vm_compute. reflexivity.
Defined.
